(** * Tool-calling orchestration loop of [ChatGPTMCPIntegration]

    A shallow embedding of [src/client/chatgpt_mcp_integration.py]: the
    conversation history, the tool invoker [_execute_tool_call], the bounded
    loop [chat], the asynchronous generator [chat_streaming], and
    [reset_conversation] / [get_conversation_history].

    The model provider, the tool provider and [json.loads] are external to the
    repository: they are oracles over an abstract world state, so every
    theorem holds for every behaviour they may show. *)

From Stdlib Require Import ZArith List Ascii String Lia.
From Stdlib Require DecimalString.
From stdpp Require Import base option list strings gmap.
Import ListNotations.

Local Open Scope string_scope.

(** ** Python values that flow through the loop *)

(** What [json.loads] returns.  A float keeps its literal text. *)
#[warnings="-register-all"]
Inductive json : Type :=
| JNull
| JBool (b : bool)
| JInt (n : Z)
| JFloat (literal : string)
| JStr (s : string)
| JArr (items : list json)
| JObj (members : list (string * json)).

(** Exceptions below [Exception] that the code tells apart.  Signals that
    derive from [BaseException] only (task cancellation, interpreter exit)
    are no failure of a call and are outside this model. *)
Inductive exn_class : Type := TypeError | JSONDecodeError | OtherException.

Record exn : Type := { exn_cls : exn_class; exn_str : string }.

Definition is_TypeError (e : exn) : bool :=
  match exn_cls e with TypeError => true | _ => false end.

(** Outcome of evaluating a Python expression or call. *)
Inductive result (A : Type) : Type :=
| Returned (a : A)
| Raised (e : exn).
Arguments Returned {A} a.
Arguments Raised {A} e.

(** ** Data model: turns of the conversation *)

Inductive Role : Type := system | user | assistant | tool.

(** One entry of [assistant_message.tool_calls]: [id], [type],
    [function.name], [function.arguments] (the JSON text). *)
Record ToolCall : Type := {
  tc_id : string;
  tc_type : string;
  fn_name : string;
  fn_arguments : string
}.

(** A message dict of [conversation_history].  [None] in [tool_calls] or
    [tool_call_id] means that the dict has no such key; [None] in [content]
    is the Python value [None]. *)
Record Turn : Type := {
  role : Role;
  content : option string;
  tool_calls : option (list ToolCall);
  tool_call_id : option string
}.

(** [response.choices[0].message] of a buffered completion. *)
Record ChatCompletionMessage : Type := {
  msg_content : option string;
  msg_tool_calls : option (list ToolCall)
}.

(** One chunk of a streamed completion: [chunk.choices[0].delta.content]. *)
Record Chunk : Type := { delta_content : option string }.

(** An entry of [self.tools] in the provider's function-calling format. *)
Record Tool : Type := {
  tool_name : string;
  tool_description : string;
  tool_parameters : json
}.

(** How [call_tool] receives the arguments: as the [arguments=] parameter,
    or unpacked as keywords with [**arguments]. *)
Inductive call_args : Type :=
| ArgumentsParam (arguments : json)
| Keywords (kwargs : list (string * json)).

(** Python truthiness of the values the code tests. *)
Definition truthy_str (s : option string) : bool :=
  match s with
  | Some (String _ _) => true
  | _ => false
  end.

Definition truthy_list {A : Type} (l : option (list A)) : bool :=
  match l with
  | Some (_ :: _) => true
  | _ => false
  end.

(** [x or ""] for an optional string. *)
Definition or_empty (s : option string) : string :=
  match s with
  | Some s => s
  | None => ""
  end.

(** [for x in xs] over a possibly absent list that tested truthy. *)
Definition calls_of (l : option (list ToolCall)) : list ToolCall :=
  match l with
  | Some l => l
  | None => []
  end.

(** [type(x).__name__] of a decoded value. *)
Definition type_name (x : json) : string :=
  match x with
  | JNull => "NoneType"
  | JBool _ => "bool"
  | JInt _ => "int"
  | JFloat _ => "float"
  | JStr _ => "str"
  | JArr _ => "list"
  | JObj _ => "dict"
  end.

(** [**arguments]: only a mapping can be unpacked into keywords.  The
    interpreter's message names the callee of the provider library first;
    the text here is the message from the callee's own name on. *)
Definition unpack_kwargs (arguments : json) : result (list (string * json)) :=
  match arguments with
  | JObj members => Returned members
  | _ => Raised {| exn_cls := TypeError;
                   exn_str := "call_tool() argument after ** must be "
                              +:+ "a mapping, not "
                              +:+ type_name arguments |}
  end.

(** The dicts that the code appends. *)
Definition system_turn (system_prompt : string) : Turn :=
  {| role := system; content := Some system_prompt;
     tool_calls := None; tool_call_id := None |}.

Definition user_turn (user_message : string) : Turn :=
  {| role := user; content := Some user_message;
     tool_calls := None; tool_call_id := None |}.

Definition tool_turn (call_id tool_result : string) : Turn :=
  {| role := tool; content := Some tool_result;
     tool_calls := None; tool_call_id := Some call_id |}.

Definition assistant_turn (full_response : string) : Turn :=
  {| role := assistant; content := Some full_response;
     tool_calls := None; tool_call_id := None |}.

(** [message_dict] of [chat]: the [tool_calls] key is set only when the
    message's [tool_calls] is truthy. *)
Definition message_dict (assistant_message : ChatCompletionMessage) : Turn :=
  {| role := assistant;
     content := msg_content assistant_message;
     tool_calls :=
       if truthy_list (msg_tool_calls assistant_message)
       then Some (map (fun tc => {| tc_id := tc_id tc; tc_type := tc_type tc;
                                    fn_name := fn_name tc;
                                    fn_arguments := fn_arguments tc |})
                      (calls_of (msg_tool_calls assistant_message)))
       else None;
     tool_call_id := None |}.

Definition BUDGET_EXHAUSTED : string :=
  "Maximum iterations reached. Please try again with a simpler request.".

Definition error_calling_tool (name : string) (e : exn) : string :=
  "Error calling tool " +:+ name +:+ ": " +:+ exn_str e.

Definition error_executing_tool (e : exn) : string :=
  "Error executing tool: " +:+ exn_str e.

Definition is_assistant (t : Turn) : bool :=
  match role t with assistant => true | _ => false end.

(** ** The integration object and its methods *)

Section Orchestration.

(** State of everything outside the process: the model provider and the
    tool provider. *)
Context {World : Type}.

(** [json.loads]. *)
Variable json_loads : string -> result json.

(** [self.client.chat.completions.create(messages=, tools=)], buffered, with
    the reading of [response.choices[0].message]: the message, or the
    exception of a request that failed. *)
Variable create :
  World -> list Turn -> option (list Tool) ->
  result ChatCompletionMessage * World.

(** The same call with [stream=True]: the chunks the stream will deliver;
    an item [Raised e] is a failure while the stream is read. *)
Variable create_stream :
  World -> list Turn -> option (list Tool) ->
  result (list (result Chunk)) * World.

(** [str(await self.mcp_client.client.call_tool(name, ...))]. *)
Variable call_tool : World -> string -> call_args -> result string * World.

(** The fields of [ChatGPTMCPIntegration] that the loop reads and writes;
    [env] stands for what [self.client] and [self.mcp_client] talk to. *)
Record Integration : Type := {
  conversation_history : list Turn;
  tools : list Tool;
  env : World
}.

(** Python statements: they run on the object, may mutate it, and either
    return or raise; mutations made before a raise stay. *)
Definition M (A : Type) : Type := Integration -> result A * Integration.

Definition ret {A : Type} (a : A) : M A := fun self => (Returned a, self).

Definition bind {A B : Type} (m : M A) (k : A -> M B) : M B :=
  fun self =>
    match m self with
    | (Returned a, self') => k a self'
    | (Raised e, self') => (Raised e, self')
    end.

(** [try: m  except Exception as e: handler e]. *)
Definition try_except {A : Type} (m : M A) (handler : exn -> M A) : M A :=
  fun self =>
    match m self with
    | (Returned a, self') => (Returned a, self')
    | (Raised e, self') => handler e self'
    end.

(** An expression without effect on the object. *)
Definition eval {A : Type} (r : result A) : M A := fun self => (r, self).

Notation "x <- m ;; k" := (bind m (fun x => k))
  (at level 100, m at next level, right associativity).
Notation "m ;;; k" := (bind m (fun _ => k))
  (at level 100, right associativity).

(** [self.conversation_history.append(turn)]. *)
Definition append (turn : Turn) : M unit :=
  fun self =>
    (Returned tt,
     {| conversation_history := conversation_history self ++ [turn];
        tools := tools self;
        env := env self |}).

(** [self.tools if self.tools else None]. *)
Definition tools_or_none (self : Integration) : option (list Tool) :=
  match tools self with
  | [] => None
  | ts => Some ts
  end.

Definition with_env (self : Integration) (w : World) : Integration :=
  {| conversation_history := conversation_history self;
     tools := tools self;
     env := w |}.

(** The buffered completion request, on the whole history. *)
Definition request_completion : M ChatCompletionMessage :=
  fun self =>
    let '(r, w) := create (env self) (conversation_history self)
                          (tools_or_none self) in
    (r, with_env self w).

Definition request_stream : M (list (result Chunk)) :=
  fun self =>
    let '(r, w) := create_stream (env self) (conversation_history self)
                                 (tools_or_none self) in
    (r, with_env self w).

Definition provider_call (name : string) (a : call_args) : M string :=
  fun self =>
    let '(r, w) := call_tool (env self) name a in
    (r, with_env self w).

(** [_execute_tool_call]: first the [arguments=] convention; on a
    [TypeError] the keyword convention; any other failure, and any failure
    of the second attempt, becomes text. *)
Definition _execute_tool_call (name : string) (arguments : json) : M string :=
  try_except
    (provider_call name (ArgumentsParam arguments))
    (fun e =>
       if is_TypeError e then
         try_except
           (kwargs <- eval (unpack_kwargs arguments) ;;
            provider_call name (Keywords kwargs))
           (fun e2 => ret (error_calling_tool name e2))
       else ret (error_calling_tool name e)).

(** The opening of [chat] and of [chat_streaming]: the system turn when a
    prompt is given and the history is empty, then the user turn. *)
Definition open_turn (user_message : string) (system_prompt : option string)
  : M unit :=
  fun self =>
    ((if truthy_str system_prompt &&
         match conversation_history self with [] => true | _ => false end
      then append (system_turn (or_empty system_prompt))
      else ret tt) ;;;
     append (user_turn user_message)) self.

(** Body of [for tool_call in assistant_message.tool_calls].  The decoding
    stands before the [try]. *)
Definition handle_tool_call (tool_call : ToolCall) : M unit :=
  function_args <- eval (json_loads (fn_arguments tool_call)) ;;
  tool_result <-
    try_except (_execute_tool_call (fn_name tool_call) function_args)
               (fun e => ret (error_executing_tool e)) ;;
  append (tool_turn (tc_id tool_call) tool_result).

Fixpoint for_each {A : Type} (xs : list A) (body : A -> M unit) : M unit :=
  match xs with
  | [] => ret tt
  | x :: xs' => body x ;;; for_each xs' body
  end.

(** [while iteration < max_iterations], [iteration] counting up from 0 by
    one per pass: [remaining] is [max_iterations - iteration], the number
    of passes that the guard still allows, and a pass ends the loop early
    by [return] or by an exception.  A budget of zero or less allows no
    pass. *)
Fixpoint chat_loop (remaining : nat) : M string :=
  match remaining with
  | O => ret BUDGET_EXHAUSTED
  | S remaining' =>
      assistant_message <- request_completion ;;
      append (message_dict assistant_message) ;;;
      if negb (truthy_list (msg_tool_calls assistant_message))
      then ret (or_empty (msg_content assistant_message))
      else
        for_each (calls_of (msg_tool_calls assistant_message))
                 handle_tool_call ;;;
        chat_loop remaining'
  end.

Definition chat (user_message : string) (system_prompt : option string)
           (max_iterations : Z) : M string :=
  open_turn user_message system_prompt ;;;
  chat_loop (Z.to_nat max_iterations).

(** [chat_streaming] is an asynchronous generator.  Calling it runs
    nothing; each [__anext__] runs the body up to the next [yield]. *)
Inductive Generator : Type :=
| Created (user_message : string) (system_prompt : option string)
| Suspended (stream : list (result Chunk)) (collected_messages : list string)
| Closed.

Inductive Step : Type :=
| Yielded (fragment : string)
| StopAsyncIteration
| Failed (e : exn).

(** [async for chunk in stream], entered or resumed. *)
Fixpoint resume (stream : list (result Chunk))
         (collected_messages : list string) (self : Integration)
  : Step * Generator * Integration :=
  match stream with
  | [] =>
      let full_response := String.concat "" collected_messages in
      (StopAsyncIteration, Closed,
       snd (append (assistant_turn full_response) self))
  | Raised e :: _ => (Failed e, Closed, self)
  | Returned chunk :: stream' =>
      if truthy_str (delta_content chunk)
      then
        let fragment := or_empty (delta_content chunk) in
        (Yielded fragment,
         Suspended stream' (collected_messages ++ [fragment]), self)
      else resume stream' collected_messages self
  end.

Definition anext (g : Generator) (self : Integration)
  : Step * Generator * Integration :=
  match g with
  | Created user_message system_prompt =>
      match (open_turn user_message system_prompt ;;; request_stream) self with
      | (Returned stream, self') => resume stream [] self'
      | (Raised e, self') => (Failed e, Closed, self')
      end
  | Suspended stream collected_messages =>
      resume stream collected_messages self
  | Closed => (StopAsyncIteration, Closed, self)
  end.

(** The caller gives the generator up: [GeneratorExit] is raised at the
    [yield] and nothing after it runs. *)
Definition aclose (g : Generator) (self : Integration)
  : Generator * Integration := (Closed, self).

Definition chat_streaming (user_message : string)
           (system_prompt : option string) : Generator :=
  Created user_message system_prompt.

(** [self.conversation_history = []]. *)
Definition reset_conversation (self : Integration) : Integration :=
  {| conversation_history := [];
     tools := tools self;
     env := env self |}.

(** The turns that [get_conversation_history] hands out. *)
Definition get_conversation_history (self : Integration) : list Turn :=
  conversation_history self.

(** *** Vocabulary of the statements *)

(** The turns with which a call opens, on a history [history]. *)
Definition opening_turns (user_message : string)
           (system_prompt : option string) (history : list Turn)
  : list Turn :=
  (if truthy_str system_prompt &&
      match history with [] => true | _ => false end
   then [system_turn (or_empty system_prompt)]
   else []) ++ [user_turn user_message].

(** The turns of one pass of the loop that acts on tool calls: the
    assistant turn, then one tool turn per request with its result. *)
Definition round_turns (round : ChatCompletionMessage * list string)
  : list Turn :=
  message_dict (fst round)
    :: zip_with tool_turn (map tc_id (calls_of (msg_tool_calls (fst round))))
                (snd round).

Definition decodable (tool_call : ToolCall) : Prop :=
  exists function_args,
    json_loads (fn_arguments tool_call) = Returned function_args.

(** A caller's [chat(...)] invocation. *)
Record ChatCall : Type := {
  user_message : string;
  system_prompt : option string;
  max_iterations : Z
}.

Definition chat_call (c : ChatCall) : M string :=
  chat (user_message c) (system_prompt c) (max_iterations c).

(** A session: the calls run one after the other on the same object. *)
Fixpoint chat_calls (cs : list ChatCall) (self : Integration) : Integration :=
  match cs with
  | [] => self
  | c :: cs' => chat_calls cs' (snd (chat_call c self))
  end.

(** The call [c] on [self] asks the model, and the model's first reply
    carries no tool calls. *)
Definition answers_plainly (c : ChatCall) (self : Integration) : bool :=
  (0 <? max_iterations c)%Z &&
  match request_completion
          (snd (open_turn (user_message c) (system_prompt c) self)) with
  | (Returned assistant_message, _) =>
      negb (truthy_list (msg_tool_calls assistant_message))
  | (Raised _, _) => false
  end.

Fixpoint all_answer_plainly (cs : list ChatCall) (self : Integration) : bool :=
  match cs with
  | [] => true
  | c :: cs' =>
      answers_plainly c self &&
      all_answer_plainly cs' (snd (chat_call c self))
  end.

(** The caller takes up to [n] fragments from the generator. *)
Fixpoint consume (n : nat) (g : Generator) (self : Integration)
  : list string * Generator * Integration :=
  match n with
  | O => ([], g, self)
  | S n' =>
      match anext g self with
      | (Yielded fragment, g', self') =>
          let '(fragments, g'', self'') := consume n' g' self' in
          (fragment :: fragments, g'', self'')
      | (_, g', self') => ([], g', self')
      end
  end.

(** The fragments that a stream holds: the truthy [delta.content]s. *)
Fixpoint fragments_of (stream : list (result Chunk)) : list string :=
  match stream with
  | [] => []
  | Returned chunk :: stream' =>
      if truthy_str (delta_content chunk)
      then or_empty (delta_content chunk) :: fragments_of stream'
      else fragments_of stream'
  | Raised _ :: _ => []
  end.

Definition delivered (item : result Chunk) : Prop :=
  exists chunk, item = Returned chunk.

End Orchestration.

(** An assistant turn has no [tool_calls] key or a non-empty list there. *)
Definition assistant_calls_ok (t : Turn) : bool :=
  match role t, tool_calls t with
  | assistant, Some [] => false
  | _, _ => true
  end.

Definition history_ok (history : list Turn) : bool :=
  forallb assistant_calls_ok history.

Arguments Integration World : clear implicits.

(** [self'] has the history of [self] and, after it, turns that respect
    the invariant on assistant turns. *)
Definition grows_ok {World : Type} (self self' : Integration World) : Prop :=
  exists added,
    (conversation_history self' = conversation_history self ++ added)%list /\
    history_ok added = true.


(** ** Object identity: the history as a list object of dict objects

    [conversation_history] above is the sequence of turns that the attribute
    denotes.  Whether a caller shares objects with the session depends on
    identity, so the methods that hand the history out or rebind it are
    also given on a store of list objects and dict objects. *)

Module Store.

Definition loc : Type := positive.

Record Heap : Type := {
  dicts : gmap loc Turn;
  lists : gmap loc (list loc)
}.

(** The attribute [self.conversation_history]: a reference to a list. *)
Record Object : Type := { history_attr : loc }.

(** A list display or [list.copy()]: a list object with a new identity. *)
Definition new_list (items : list loc) (h : Heap) : loc * Heap :=
  let l := fresh (dom (lists h)) in
  (l, {| dicts := dicts h; lists := <[l := items]> (lists h) |}).

(** A dict display [{...}]. *)
Definition new_dict (t : Turn) (h : Heap) : loc * Heap :=
  let d := fresh (dom (dicts h)) in
  (d, {| dicts := <[d := t]> (dicts h); lists := lists h |}).

Definition list_items (l : loc) (h : Heap) : list loc :=
  default [] (lists h !! l).

(** Any in-place change of the list object [l]: [append], [pop],
    [clear], item assignment, [sort], ... *)
Definition list_mutate (l : loc) (f : list loc -> list loc) (h : Heap)
  : Heap :=
  {| dicts := dicts h; lists := alter f l (lists h) |}.

(** Any in-place change of the dict object [d]. *)
Definition dict_mutate (d : loc) (f : Turn -> Turn) (h : Heap) : Heap :=
  {| dicts := alter f d (dicts h); lists := lists h |}.

(** [lst[i][...] = ...]: a change of the dict that item [i] of the list
    refers to; out of range nothing is changed ([IndexError]). *)
Definition item_mutate (l : loc) (i : nat) (f : Turn -> Turn) (h : Heap)
  : Heap :=
  match list_items l h !! i with
  | Some d => dict_mutate d f h
  | None => h
  end.

(** The turns that the list object [l] holds, in order. *)
Definition read (l : loc) (h : Heap) : option (list Turn) :=
  match lists h !! l with
  | Some items => mapM (fun d => dicts h !! d) items
  | None => None
  end.

(** [self.conversation_history.append({...})]. *)
Definition append_turn (self : Object) (t : Turn) (h : Heap) : Heap :=
  let '(d, h1) := new_dict t h in
  list_mutate (history_attr self) (fun items => (items ++ [d])%list) h1.

(** [self.conversation_history = []]: the attribute is rebound. *)
Definition reset_conversation (self : Object) (h : Heap) : Object * Heap :=
  let '(l, h1) := new_list [] h in
  ({| history_attr := l |}, h1).

(** [return self.conversation_history.copy()]: a new list object with the
    same items. *)
Definition get_conversation_history (self : Object) (h : Heap)
  : loc * Heap :=
  new_list (list_items (history_attr self) h) h.

(** [reset_session] of [main.py] after its lookup: reset, then the
    system turn is appended again. *)
Definition reset_session (self : Object) (system_prompt : string) (h : Heap)
  : Object * Heap :=
  let '(self1, h1) := reset_conversation self h in
  (self1, append_turn self1 (system_turn system_prompt) h1).

Definition set_content (new_content : string) (t : Turn) : Turn :=
  {| role := role t; content := Some new_content;
     tool_calls := tool_calls t; tool_call_id := tool_call_id t |}.

End Store.

(** ** Scripted providers for the examples *)

Module Demo.

(** The replies the model will give, and what the tool provider saw. *)
Record World : Type := {
  replies : list (result ChatCompletionMessage);
  streams : list (result (list (result Chunk)));
  tool_log : list (string * call_args)
}.

Definition script_exhausted : exn :=
  {| exn_cls := OtherException; exn_str := "no reply scripted" |}.

Definition create (w : World) (messages : list Turn)
           (tools : option (list Tool))
  : result ChatCompletionMessage * World :=
  match replies w with
  | [] => (Raised script_exhausted, w)
  | r :: rs =>
      (r, {| replies := rs; streams := streams w; tool_log := tool_log w |})
  end.

Definition create_stream (w : World) (messages : list Turn)
           (tools : option (list Tool))
  : result (list (result Chunk)) * World :=
  match streams w with
  | [] => (Raised script_exhausted, w)
  | r :: rs =>
      (r, {| replies := replies w; streams := rs; tool_log := tool_log w |})
  end.

(** A model that asks for the same tool call whatever it is sent. *)
Definition create_always (call : ToolCall) (w : World)
           (messages : list Turn) (tools : option (list Tool))
  : result ChatCompletionMessage * World :=
  (Returned {| msg_content := None; msg_tool_calls := Some [call] |}, w).

(** A provider with three tools: [lookup] answers, [legacy] takes keywords
    only, every other name fails. *)
Definition call_tool (w : World) (name : string) (a : call_args)
  : result string * World :=
  let w' := {| replies := replies w; streams := streams w;
               tool_log := tool_log w ++ [(name, a)] |} in
  if String.eqb name "lookup" then (Returned "rows: 1", w')
  else if String.eqb name "legacy" then
    match a with
    | ArgumentsParam _ =>
        (Raised {| exn_cls := TypeError;
                   exn_str := "unexpected keyword argument 'arguments'" |},
         w')
    | Keywords _ => (Returned "legacy ok", w')
    end
  else (Raised {| exn_cls := OtherException;
                  exn_str := "Unknown tool: " +:+ name |}, w').

(** [json.loads] on the two argument texts of the examples: the empty
    object, and an object that is opened and never closed.  Other texts
    are not needed and are reported as undecodable. *)
Definition cut_off_object : exn :=
  {| exn_cls := JSONDecodeError;
     exn_str := "Expecting property name enclosed in double quotes: "
                +:+ "line 1 column 2 (char 1)" |}.

Definition json_loads (text : string) : result json :=
  if String.eqb text "{}" then Returned (JObj [])
  else if String.eqb text "{" then Raised cut_off_object
  else
    Raised {| exn_cls := JSONDecodeError;
              exn_str := "Expecting value: line 1 column 1 (char 0)" |}.

Definition call (id name arguments : string) : ToolCall :=
  {| tc_id := id; tc_type := "function";
     fn_name := name; fn_arguments := arguments |}.

Definition world (rs : list (result ChatCompletionMessage))
           (ss : list (result (list (result Chunk)))) : World :=
  {| replies := rs; streams := ss; tool_log := [] |}.

Definition session (history : list Turn) (w : World) : Integration World :=
  {| conversation_history := history; tools := []; env := w |}.

Definition says (text : string) : result ChatCompletionMessage :=
  Returned {| msg_content := Some text; msg_tool_calls := None |}.

Definition asks (calls : list ToolCall) : result ChatCompletionMessage :=
  Returned {| msg_content := None; msg_tool_calls := Some calls |}.

Definition delta (text : string) : result Chunk :=
  Returned {| delta_content := Some text |}.

(** A request whose argument text is cut off, and a proper one. *)
Definition malformed_call : ToolCall := call "c1" "lookup" "{".
Definition lookup_call : ToolCall := call "c1" "lookup" "{}".
Definition unknown_call : ToolCall := call "c2" "nope" "{}".

(** The model asks for a malformed call, and would then answer. *)
Definition malformed_session : Integration World :=
  session [] (world [asks [malformed_call]; says "done"] []).

(** The model asks for two calls, then answers. *)
Definition two_calls : ChatCompletionMessage :=
  {| msg_content := None;
     msg_tool_calls := Some [lookup_call; unknown_call] |}.

Definition two_calls_session : Integration World :=
  session [user_turn "hi"] (world [Returned two_calls; says "done"] []).

(** The model answers with neither content nor calls. *)
Definition silent : ChatCompletionMessage :=
  {| msg_content := None; msg_tool_calls := Some [] |}.

Definition assistant_turn_none : Turn :=
  {| role := assistant; content := None;
     tool_calls := None; tool_call_id := None |}.

Definition silent_session : Integration World :=
  session [user_turn "hi"] (world [Returned silent] []).

(** The example of the module's own [main]: a new object, a system
    prompt with the first question. *)
Definition fresh_session : Integration World :=
  session [] (world [says "8.0"; says "12:00"] []).

Definition first_question : ChatCall :=
  {| user_message := "What's the current database and MySQL version?";
     system_prompt := Some "You are a database assistant.";
     max_iterations := 10 |}.

(** A stream of five fragments, with a chunk without content between. *)
Definition five_fragments : list (result Chunk) :=
  [delta "a"; delta "b"; Returned {| delta_content := None |};
   delta "c"; delta "d"; delta "e"].

Definition streaming_session : Integration World :=
  session [system_turn "sys"] (world [] [Returned five_fragments]).

(** A session object whose history holds one user turn. *)
Definition empty_heap : Store.Heap :=
  {| Store.dicts := ∅; Store.lists := ∅ |}.

Definition greeted : Store.Object * Store.Heap :=
  let '(self, h) :=
    Store.reset_conversation {| Store.history_attr := 1%positive |}
                             empty_heap in
  (self, Store.append_turn self (user_turn "hi") h).

End Demo.


(** * Further vocabulary: what a call leaves in the history *)

(** The roles of the turns that the loop appends after the opening. *)
Definition assistant_or_tool (t : Turn) : bool :=
  match role t with
  | assistant | tool => true
  | _ => false
  end.

(** [self'] is [self] with turns appended that all satisfy [P]; no earlier
    turn is removed or changed and the tools are the same. *)
Definition appends_only {World : Type} (P : Turn -> bool)
           (self self' : Integration World) : Prop :=
  exists added,
    (conversation_history self' = conversation_history self ++ added)%list /\
    forallb P added = true /\
    tools self' = tools self.

(** The ids that an assistant turn leaves open for tool turns. *)
Definition ids_of (t : Turn) : list string :=
  map tc_id (calls_of (tool_calls t)).

(** A walk along the history with the ids of the latest assistant turn: a
    tool turn must carry one of them, a system or user turn closes them.
    The result is the ids open at the end, [None] when a tool turn answers
    no request of the assistant turn before it. *)
Fixpoint answers_from (open_ids : list string) (history : list Turn)
  : option (list string) :=
  match history with
  | [] => Some open_ids
  | t :: history' =>
      match role t with
      | assistant => answers_from (ids_of t) history'
      | tool =>
          match tool_call_id t with
          | Some call_id =>
              if existsb (String.eqb call_id) open_ids
              then answers_from open_ids history'
              else None
          | None => None
          end
      | _ => answers_from [] history'
      end
  end.

Definition tool_turns_answer (history : list Turn) : bool :=
  match answers_from [] history with
  | Some _ => true
  | None => false
  end.

(** What the tool provider is asked for one request on the world [w], and
    what comes of it: the call under the [arguments=] convention; after a
    [TypeError] of that call, the call with the members of the arguments as
    keywords.  [text] is the answer of the call that returned, or the text
    of the failure behind the tag; [w'] is the world after the last call
    made. *)
Definition provider_outcome {World : Type}
           (call_tool : World -> string -> call_args -> result string * World)
           (name : string) (arguments : json) (w : World)
           (text : string) (w' : World) : Prop :=
  match call_tool w name (ArgumentsParam arguments) with
  | (Returned answer, w1) => text = answer /\ w' = w1
  | (Raised e, w1) =>
      match exn_cls e, arguments with
      | TypeError, JObj members =>
          match call_tool w1 name (Keywords members) with
          | (Returned answer, w2) => text = answer /\ w' = w2
          | (Raised e2, w2) =>
              text = "Error calling tool " +:+ name +:+ ": " +:+ exn_str e2 /\
              w' = w2
          end
      | TypeError, _ =>
          (exists message,
              text = "Error calling tool " +:+ name +:+ ": " +:+ message) /\
          w' = w1
      | _, _ =>
          text = "Error calling tool " +:+ name +:+ ": " +:+ exn_str e /\
          w' = w1
      end
  end.

(** The requests [calls] are carried out one after the other from the
    world [w]: each has its arguments decoded and the provider asked with
    them, on the world that the request before it left; [results] are the
    texts, [w'] is the world after the last request. *)
Fixpoint carried_out {World : Type}
         (json_loads : string -> result json)
         (call_tool : World -> string -> call_args -> result string * World)
         (calls : list ToolCall) (w : World)
         (results : list string) (w' : World) : Prop :=
  match calls, results with
  | [], [] => w' = w
  | tool_call :: calls', text :: results' =>
      exists (function_args : json) (w1 : World),
        json_loads (fn_arguments tool_call) = Returned function_args /\
        provider_outcome call_tool (fn_name tool_call) function_args
                         w text w1 /\
        carried_out json_loads call_tool calls' w1 results' w'
  | _, _ => False
  end.

(** * The tool registry and the query client

    [MySQLMCPClient.list_available_tools] and the keywords of
    [execute_query] of [src/client/mcp_client.py], and [_load_tools] of the
    integration. *)

(** An attribute of a provider object that [hasattr] may not find. *)
Inductive attribute (A : Type) : Type :=
| Missing
| Has (value : A).
Arguments Missing {A}.
Arguments Has {A} value.

(** A tool as the provider lists it: [name], [description] (which may be
    [None]) and [inputSchema]. *)
Record McpTool : Type := {
  mcp_name : attribute string;
  mcp_description : attribute (option string);
  mcp_inputSchema : attribute json
}.

(** The dict that [list_available_tools] makes of a tool. *)
Record ToolInfo : Type := {
  info_name : string;
  info_description : option string;
  info_input_schema : json
}.

(** An entry of [self.tools]: [{"type": ..., "function": {...}}]. *)
Record FunctionTool : Type := {
  ft_type : string;
  ft_name : string;
  ft_description : option string;
  ft_parameters : json
}.

Definition tool_info (tool : McpTool) : ToolInfo :=
  {| info_name :=
       match mcp_name tool with Has name => name | Missing => "" end;
     info_description :=
       match mcp_description tool with
       | Has description => description
       | Missing => Some ""
       end;
     info_input_schema :=
       match mcp_inputSchema tool with
       | Has schema => schema
       | Missing => JObj []
       end |}.

Definition openai_tool (tool : ToolInfo) : FunctionTool :=
  {| ft_type := "function";
     ft_name := info_name tool;
     ft_description := info_description tool;
     ft_parameters := info_input_schema tool |}.

(** The arguments of [execute_query]; [None] is Python's [None]. *)
Record QueryArguments : Type := {
  qa_query : string;
  qa_params : option (list json);
  qa_host : option string;
  qa_port : option Z;
  qa_database : option string;
  qa_user : option string;
  qa_password : option string
}.

(** [if x is not None: kwargs[key] = x]. *)
Definition keyword {A : Type} (key : string) (to_json : A -> json)
           (x : option A) : list (string * json) :=
  match x with
  | Some a => [(key, to_json a)]
  | None => []
  end.

(** The [kwargs] dict of [execute_query], in insertion order. *)
Definition execute_query_kwargs (a : QueryArguments) : list (string * json) :=
  ([("query", JStr (qa_query a))]
   ++ keyword "params" JArr (qa_params a)
   ++ keyword "host" JStr (qa_host a)
   ++ keyword "port" JInt (qa_port a)
   ++ keyword "database" JStr (qa_database a)
   ++ keyword "user" JStr (qa_user a)
   ++ keyword "password" JStr (qa_password a))%list.

(** [kwargs[key]] of a dict in insertion order. *)
Fixpoint kwarg (key : string) (kwargs : list (string * json)) : option json :=
  match kwargs with
  | [] => None
  | (k, v) :: kwargs' => if String.eqb k key then Some v else kwarg key kwargs'
  end.

Section Registry.

Context {World : Type}.

(** [self.client.list_tools()]. *)
Variable list_tools : World -> result (list McpTool) * World.

(** The fields of the integration that the registry writes. *)
Record Registry : Type := {
  registered : list FunctionTool;
  provider : World
}.

Definition list_available_tools (w : World) : result (list ToolInfo) * World :=
  match list_tools w with
  | (Returned listed, w') => (Returned (map tool_info listed), w')
  | (Raised e, w') => (Raised e, w')
  end.

(** [_load_tools]: the listing first, then [self.tools = []] and one
    [append] per tool. *)
Definition _load_tools (self : Registry) : result unit * Registry :=
  match list_available_tools (provider self) with
  | (Returned mcp_tools, w) =>
      (Returned tt,
       {| registered :=
            fold_left (fun tools tool => (tools ++ [openai_tool tool])%list)
                      mcp_tools [];
          provider := w |})
  | (Raised e, w) =>
      (Raised e, {| registered := registered self; provider := w |})
  end.

End Registry.

(** * The HTTP layer: the session table of [src/client/main.py] *)

(** [needle in haystack] for texts. *)
Fixpoint contains (needle haystack : string) : bool :=
  String.prefix needle haystack ||
  match haystack with
  | EmptyString => false
  | String _ rest => contains needle rest
  end.

(** A value of the global [sessions] dict: the integration object (its
    history and tools), [created_at] and [message_count]. *)
Record Entry : Type := {
  entry_history : list Turn;
  entry_tools : list Tool;
  created_at : string;
  message_count : Z
}.

(** The dict itself, in insertion order. *)
Definition Table : Type := list (string * Entry).

(** [sessions[session_id]] and [session_id in sessions]. *)
Fixpoint session_get (session_id : string) (table : Table) : option Entry :=
  match table with
  | [] => None
  | (k, entry) :: table' =>
      if String.eqb k session_id then Some entry
      else session_get session_id table'
  end.

(** A change of the value stored under [session_id]. *)
Fixpoint session_update (session_id : string) (f : Entry -> Entry)
         (table : Table) : Table :=
  match table with
  | [] => []
  | (k, entry) :: table' =>
      (k, if String.eqb k session_id then f entry else entry)
        :: session_update session_id f table'
  end.

(** [del sessions[session_id]]. *)
Fixpoint session_del (session_id : string) (table : Table) : Table :=
  match table with
  | [] => []
  | (k, entry) :: table' =>
      if String.eqb k session_id then session_del session_id table'
      else (k, entry) :: session_del session_id table'
  end.

(** What an endpoint gives back: its value, an [HTTPException], or an
    exception that it does not handle. *)
Inductive Reply (A : Type) : Type :=
| Ok (a : A)
| HTTPException (status_code : Z) (detail : string)
| Unhandled (e : exn).
Arguments Ok {A} a.
Arguments HTTPException {A} status_code detail.
Arguments Unhandled {A} e.

Record ChatRequest : Type := {
  req_message : string;
  req_session_id : option string;
  req_system_prompt : option string
}.

Record ChatResponse : Type := {
  res_session_id : string;
  res_message : string;
  res_response : string;
  res_timestamp : string
}.

Record SessionInfo : Type := {
  si_session_id : string;
  si_created_at : string;
  si_message_count : Z
}.

Definition is_user (t : Turn) : bool :=
  match role t with user => true | _ => false end.

Definition user_turns (history : list Turn) : nat :=
  length (List.filter is_user history).

(** What holds of every stored session: the history opens with a system
    turn, [message_count] is at least zero and at most the number of user
    turns, and the history respects the two invariants of the loop. *)
Definition entry_ok (entry : Entry) : bool :=
  match entry_history entry with
  | t :: _ => match role t with system => true | _ => false end
  | [] => false
  end
  && (0 <=? message_count entry)%Z
  && (message_count entry <=? Z.of_nat (user_turns (entry_history entry)))%Z
  && history_ok (entry_history entry)
  && tool_turns_answer (entry_history entry).

Definition table_ok (table : Table) : Prop :=
  NoDup (map fst table) /\
  Forall (fun kv => entry_ok (snd kv) = true) table.

Module Api.

Section Endpoints.

Context {World : Type}.
Variable json_loads : string -> result json.
Variable create :
  World -> list Turn -> option (list Tool) ->
  result ChatCompletionMessage * World.
Variable call_tool : World -> string -> call_args -> result string * World.

(** [str.lower]. *)
Variable str_lower : string -> string.

(** [str(e)] of an [HTTPException] with this status and detail. *)
Variable http_exception_str : Z -> string -> string.

(** [os.getenv]. *)
Variable getenv : World -> string -> option string.

(** [str(uuid.uuid4())] and [datetime.now().isoformat()]. *)
Variable uuid4 : World -> string * World.
Variable now : World -> string * World.

(** [ChatGPTMCPIntegration(api_key=, mcp_server_url=)] followed by
    [__aenter__()]: the tools that the new object has loaded. *)
Variable start_integration :
  World -> string -> string -> result (list Tool) * World.

(** [integration.__aexit__(None, None, None)]. *)
Variable stop_integration : World -> Entry -> result unit * World.

(** The text of [get_default_system_prompt()]. *)
Variable default_system_prompt : string.

(** The process: the [sessions] dict and everything outside. *)
Record Server : Type := {
  sessions : Table;
  outside : World
}.

(** [get_openai_key]. *)
Definition get_openai_key (w : World) : Reply string :=
  match getenv w "OPENAI_API_KEY" with
  | Some (String c key) => Ok (String c key)
  | _ => HTTPException 500 "OPENAI_API_KEY not configured"
  end.

(** [get_mcp_server_url]. *)
Definition get_mcp_server_url (w : World) : string :=
  match getenv w "MCP_SERVER_URL" with
  | Some url => url
  | None => "http://localhost:8000/mcp"
  end.

Definition get_or_create_session (session_id system_prompt : option string)
           (sv : Server) : Reply (string * Entry) * Server :=
  let '(session_id, w) :=
    if truthy_str session_id then (or_empty session_id, outside sv)
    else uuid4 (outside sv) in
  match session_get session_id (sessions sv) with
  | Some entry =>
      (Ok (session_id, entry), {| sessions := sessions sv; outside := w |})
  | None =>
      match get_openai_key w with
      | Ok api_key =>
          match start_integration w api_key (get_mcp_server_url w) with
          | (Returned loaded, w1) =>
              let history :=
                if truthy_str system_prompt
                then [system_turn (or_empty system_prompt)]
                else [system_turn default_system_prompt] in
              let '(timestamp, w2) := now w1 in
              let entry := {| entry_history := history;
                              entry_tools := loaded;
                              created_at := timestamp;
                              message_count := 0 |} in
              (Ok (session_id, entry),
               {| sessions := (sessions sv ++ [(session_id, entry)])%list;
                  outside := w2 |})
          | (Raised e, w1) =>
              (Unhandled e, {| sessions := sessions sv; outside := w1 |})
          end
      | HTTPException status_code detail =>
          (HTTPException status_code detail,
           {| sessions := sessions sv; outside := w |})
      | Unhandled e =>
          (Unhandled e, {| sessions := sessions sv; outside := w |})
      end
  end.

(** [create_session]: [sessions[session_id]] is the entry that
    [get_or_create_session] found or stored. *)
Definition create_session (system_prompt : option string) (sv : Server)
  : Reply SessionInfo * Server :=
  match get_or_create_session None system_prompt sv with
  | (Ok (session_id, entry), sv1) =>
      (Ok {| si_session_id := session_id;
             si_created_at := created_at entry;
             si_message_count := 0 |}, sv1)
  | (HTTPException status_code detail, sv1) =>
      (HTTPException status_code detail, sv1)
  | (Unhandled e, sv1) => (Unhandled e, sv1)
  end.

(** The [except Exception] of the chat endpoint: the text of the exception
    decides the status. *)
Definition error_reply {A : Type} (error_message : string) : Reply A :=
  if contains "401" error_message
     || contains "invalid_api_key" (str_lower error_message)
  then HTTPException 401
         ("OpenAI API key is invalid or missing. "
          +:+ "Please configure a valid OPENAI_API_KEY.")
  else if contains "429" error_message
          || contains "rate_limit" (str_lower error_message)
  then HTTPException 429
         "OpenAI API rate limit exceeded. Please try again later."
  else HTTPException 500 error_message.

(** The integration object of an entry, and the entry after a call. *)
Definition integration_of (entry : Entry) (w : World) : Integration World :=
  {| conversation_history := entry_history entry;
     tools := entry_tools entry;
     env := w |}.

Definition stored (self : Integration World) (count : Z) (entry : Entry)
  : Entry :=
  {| entry_history := conversation_history self;
     entry_tools := tools self;
     created_at := created_at entry;
     message_count := count |}.

(** [POST /api/chat]. *)
Definition chat (request : ChatRequest) (sv : Server)
  : Reply ChatResponse * Server :=
  match get_or_create_session (req_session_id request)
                              (req_system_prompt request) sv with
  | (Ok (session_id, entry), sv1) =>
      match chat json_loads create call_tool (req_message request) None 10
                 (integration_of entry (outside sv1)) with
      | (Returned response, self') =>
          let table :=
            session_update session_id
                           (stored self' (message_count entry + 1))
                           (sessions sv1) in
          let '(timestamp, w) := now (env self') in
          (Ok {| res_session_id := session_id;
                 res_message := req_message request;
                 res_response := response;
                 res_timestamp := timestamp |},
           {| sessions := table; outside := w |})
      | (Raised e, self') =>
          (error_reply (exn_str e),
           {| sessions :=
                session_update session_id
                               (stored self' (message_count entry))
                               (sessions sv1);
              outside := env self' |})
      end
  | (HTTPException status_code detail, sv1) =>
      (error_reply (http_exception_str status_code detail), sv1)
  | (Unhandled e, sv1) => (error_reply (exn_str e), sv1)
  end.

(** [GET /api/session/{session_id}/history]. *)
Definition get_history (session_id : string) (sv : Server)
  : Reply (string * list Turn) :=
  match session_get session_id (sessions sv) with
  | None => HTTPException 404 "Session not found"
  | Some entry =>
      Ok (session_id,
          get_conversation_history (integration_of entry (outside sv)))
  end.

(** [DELETE /api/session/{session_id}]. *)
Definition delete_session (session_id : string) (sv : Server)
  : Reply string * Server :=
  match session_get session_id (sessions sv) with
  | None => (HTTPException 404 "Session not found", sv)
  | Some entry =>
      match stop_integration (outside sv) entry with
      | (Returned _, w) =>
          (Ok "Session deleted",
           {| sessions := session_del session_id (sessions sv);
              outside := w |})
      | (Raised e, w) =>
          (Unhandled e, {| sessions := sessions sv; outside := w |})
      end
  end.

(** [POST /api/session/{session_id}/reset]. *)
Definition reset_session (session_id : string) (sv : Server)
  : Reply string * Server :=
  match session_get session_id (sessions sv) with
  | None => (HTTPException 404 "Session not found", sv)
  | Some entry =>
      let self :=
        snd (append (system_turn default_system_prompt)
                    (reset_conversation
                       (integration_of entry (outside sv)))) in
      (Ok "Session reset",
       {| sessions := session_update session_id (stored self 0) (sessions sv);
          outside := outside sv |})
  end.

(** [GET /api/sessions]. *)
Definition list_sessions (sv : Server) : list SessionInfo :=
  map (fun kv => {| si_session_id := fst kv;
                    si_created_at := created_at (snd kv);
                    si_message_count := message_count (snd kv) |})
      (sessions sv).

End Endpoints.

End Api.

(** ** A scripted environment for the endpoints *)

Module DemoApi.

(** [str.lower] on texts of ASCII letters. *)
Definition ascii_lower (c : ascii) : ascii :=
  let n := nat_of_ascii c in
  if Nat.leb 65 n && Nat.leb n 90 then ascii_of_nat (n + 32) else c.

Fixpoint str_lower (text : string) : string :=
  match text with
  | EmptyString => EmptyString
  | String c text' => String (ascii_lower c) (str_lower text')
  end.

(** [str(e)] of an [HTTPException]: status, colon, detail. *)
Definition http_exception_str (status_code : Z) (detail : string) : string :=
  DecimalString.NilZero.string_of_int (Z.to_int status_code)
  +:+ ": " +:+ detail.

Definition getenv (w : Demo.World) (name : string) : option string :=
  if String.eqb name "OPENAI_API_KEY" then Some "sk-test" else None.

Definition uuid4 (w : Demo.World) : string * Demo.World :=
  ("0b5f6c1e-generated", w).

Definition now (w : Demo.World) : string * Demo.World :=
  ("2025-10-25T12:00:00", w).

Definition start_integration (w : Demo.World) (api_key url : string)
  : result (list Tool) * Demo.World := (Returned [], w).

Definition stop_integration (w : Demo.World) (entry : Entry)
  : result unit * Demo.World := (Returned tt, w).

(** A provider connection that cannot be closed. *)
Definition broken_pipe : exn :=
  {| exn_cls := OtherException; exn_str := "Broken pipe" |}.

Definition stop_fails (w : Demo.World) (entry : Entry)
  : result unit * Demo.World := (Raised broken_pipe, w).

Definition default_system_prompt : string :=
  "You are a database assistant API that responds ONLY in JSON format.".

(** A server with one session, asked once and answered. *)
Definition alice : Entry :=
  {| entry_history := [system_turn "sys"; user_turn "hi";
                       assistant_turn "hello"];
     entry_tools := [];
     created_at := "2025-10-25T11:00:00";
     message_count := 1 |}.

Definition server (replies : list (result ChatCompletionMessage))
  : Api.Server :=
  {| Api.sessions := [("alice", alice)];
     Api.outside := Demo.world replies [] |}.

Definition request (message session_id : string) (prompt : option string)
  : ChatRequest :=
  {| req_message := message;
     req_session_id := Some session_id;
     req_system_prompt := prompt |}.

Definition unreachable : result ChatCompletionMessage :=
  Raised {| exn_cls := OtherException; exn_str := "Connection error." |}.

End DemoApi.

(** * The query tool of the server

    [MySQLConnection] and [get_db_connection_from_env] of
    [src/server/db_connection.py], and the tool [execute_select_query] of
    [src/server/mcp_server.py]. *)

Module Server.

(** How the [except] clauses of the server see an exception: as a
    [ValueError], as a [ConnectionError], as an [Error] of the MySQL
    connector, or as another [Exception]. *)
Inductive exn_kind : Type :=
| ValueError
| ConnectionError
| MySQLError
| OtherError.

Record raised : Type := { kind : exn_kind; text : string }.

Inductive outcome (A : Type) : Type :=
| Done (a : A)
| Fails (e : raised).
Arguments Done {A} a.
Arguments Fails {A} e.

(** The error response of the tools, before [json.dumps]. *)
Definition error_response (title description error type : string) : json :=
  JObj [("title", JStr title);
        ("description", JStr description);
        ("data", JArr [JObj [("error", JStr error); ("type", JStr type)]])].

Section Database.

(** The world of the database server, connection handles, row dicts. *)
Context {World Handle Row : Type}.

(** [str.strip] and [str.upper]. *)
Variable strip : string -> string.
Variable upper : string -> string.

(** [os.getenv] and [int] on a text. *)
Variable getenv : World -> string -> option string.
Variable python_int : string -> outcome Z.

(** [mysql.connector.connect(host=, port=, database=, user=, password=)],
    [connection.is_connected()] and [connection.close()]. *)
Variable mysql_connect :
  World -> string -> Z -> option string -> option string -> option string ->
  outcome Handle * World.
Variable is_connected : World -> Handle -> bool.
Variable close : World -> Handle -> outcome unit * World.

(** What the cursor gives: [fetchall()], [column_names] and [rowcount]. *)
Record Fetched : Type := {
  fetched_rows : list Row;
  fetched_column_names : list string;
  fetched_rowcount : Z
}.

(** A cursor of the connection that executes the query, with the
    parameters when there are any, and is read and closed. *)
Variable run_query :
  World -> Handle -> string -> option (list json) -> outcome Fetched * World.

(** The dict that [execute_select] returns. *)
Record Selected : Type := {
  sel_data : list Row;
  sel_columns : list string;
  sel_row_count : Z;
  sel_query : string
}.

(** [json.dumps(..., indent=2, ensure_ascii=False)] of an error response,
    and the building and dumping of the response to a result, with
    [default=str]. *)
Variable dumps : json -> string.
Variable dumps_result : Selected -> outcome string.

Record MySQLConnection : Type := {
  host : string;
  port : Z;
  database : option string;
  user : option string;
  password : option string;
  connection : option Handle
}.

Definition with_connection (self : MySQLConnection) (h : Handle)
  : MySQLConnection :=
  {| host := host self; port := port self; database := database self;
     user := user self; password := password self; connection := Some h |}.

(** [connect]: an [Error] of the connector becomes a [ConnectionError]. *)
Definition connect (self : MySQLConnection) (w : World)
  : outcome bool * MySQLConnection * World :=
  match mysql_connect w (host self) (port self) (database self) (user self)
                      (password self) with
  | (Done h, w1) => (Done (is_connected w1 h), with_connection self h, w1)
  | (Fails e, w1) =>
      (match kind e with
       | MySQLError =>
           Fails {| kind := ConnectionError;
                    text := "Error connecting to MySQL: " +:+ text e |}
       | _ => Fails e
       end, self, w1)
  end.

(** [disconnect]. *)
Definition disconnect (self : MySQLConnection) (w : World)
  : outcome unit * MySQLConnection * World :=
  match connection self with
  | Some h =>
      if is_connected w h
      then let '(r, w1) := close w h in (r, self, w1)
      else (Done tt, self, w)
  | None => (Done tt, self, w)
  end.

(** The guard of [execute_select]. *)
Definition is_select (query : string) : bool :=
  String.prefix "SELECT" (upper (strip query)).

(** [if params:] for a tuple or [None]. *)
Definition given (params : option (list json)) : option (list json) :=
  match params with
  | Some (p :: ps) => Some (p :: ps)
  | _ => None
  end.

(** [execute_select]. *)
Definition execute_select (self : MySQLConnection) (query : string)
           (params : option (list json)) (w : World)
  : outcome Selected * MySQLConnection * World :=
  if negb (is_select query)
  then (Fails {| kind := ValueError;
                 text := "Only SELECT queries are allowed" |}, self, w)
  else
    let '(connected, self1, w1) :=
      match connection self with
      | Some h =>
          if is_connected w h then (Done true, self, w) else connect self w
      | None => connect self w
      end in
    match connected with
    | Fails e => (Fails e, self1, w1)
    | Done _ =>
        match connection self1 with
        | None =>
            (Fails {| kind := OtherError;
                      text := "'NoneType' object has no attribute 'cursor'" |},
             self1, w1)
        | Some h =>
            match run_query w1 h query (given params) with
            | (Done fetched, w2) =>
                (Done {| sel_data := fetched_rows fetched;
                         sel_columns := fetched_column_names fetched;
                         sel_row_count := fetched_rowcount fetched;
                         sel_query := query |}, self1, w2)
            | (Fails e, w2) =>
                (match kind e with
                 | MySQLError =>
                     Fails {| kind := OtherError;
                              text := "Error executing query: " +:+ text e |}
                 | _ => Fails e
                 end, self1, w2)
            end
        end
    end.

(** [get_db_connection_from_env]. *)
Definition get_db_connection_from_env (w : World) : outcome MySQLConnection :=
  match python_int (default "3306" (getenv w "MYSQL_PORT")) with
  | Done port_number =>
      Done {| host := default "localhost" (getenv w "MYSQL_HOST");
              port := port_number;
              database := getenv w "MYSQL_DATABASE";
              user := getenv w "MYSQL_USER";
              password := getenv w "MYSQL_PASSWORD";
              connection := None |}
  | Fails e => Fails e
  end.

(** The [try] block of [execute_select_query]: the connection from the
    environment, [with db_conn:] around [execute_select], the response. *)
Definition select_and_format (query : string) (params : option (list json))
           (w : World) : outcome string * World :=
  match get_db_connection_from_env w with
  | Fails e => (Fails e, w)
  | Done db_conn =>
      match connect db_conn w with
      | (Fails e, _, w1) => (Fails e, w1)
      | (Done _, entered, w1) =>
          let '(result, used, w2) := execute_select entered query params w1 in
          let '(exited, _, w3) := disconnect used w2 in
          match exited with
          | Fails e => (Fails e, w3)
          | Done _ =>
              match result with
              | Done selected => (dumps_result selected, w3)
              | Fails e => (Fails e, w3)
              end
          end
      end
  end.

(** The tool [execute_select_query]. *)
Definition execute_select_query (query : string) (params : option (list json))
           (w : World) : outcome string * World :=
  let query_params := given params in
  match select_and_format query query_params w with
  | (Done response, w') => (Done response, w')
  | (Fails e, w') =>
      (Done
         (dumps
            match kind e with
            | ValueError =>
                error_response "Validation Error" "Query validation failed"
                               (text e) "validation_error"
            | ConnectionError =>
                error_response "Connection Error"
                               "Failed to connect to database"
                               (text e) "connection_error"
            | _ =>
                error_response "Execution Error" "Error executing query"
                               (text e) "execution_error"
            end), w')
  end.

End Database.

End Server.

(** ** A scripted database for the examples *)

Module DemoDb.

(** The world is the list of the queries that reached a cursor. *)
Definition World : Type := list string.

Definition ascii_upper (c : ascii) : ascii :=
  let n := nat_of_ascii c in
  if Nat.leb 97 n && Nat.leb n 122 then ascii_of_nat (n - 32) else c.

(** [str.upper] on texts of ASCII letters. *)
Fixpoint upper (text : string) : string :=
  match text with
  | EmptyString => EmptyString
  | String c text' => String (ascii_upper c) (upper text')
  end.

(** White space of [str.strip] among the ASCII characters: tab to carriage
    return, the four separators, and the blank. *)
Definition is_space (c : ascii) : bool :=
  let n := nat_of_ascii c in
  Nat.eqb n 32 || (Nat.leb 9 n && Nat.leb n 13)
  || (Nat.leb 28 n && Nat.leb n 31).

Fixpoint lstrip (text : string) : string :=
  match text with
  | EmptyString => EmptyString
  | String c text' => if is_space c then lstrip text' else text
  end.

Fixpoint reverse (text acc : string) : string :=
  match text with
  | EmptyString => acc
  | String c text' => reverse text' (String c acc)
  end.

(** [str.strip] on ASCII texts. *)
Definition strip (text : string) : string :=
  reverse (lstrip (reverse (lstrip text) EmptyString)) EmptyString.

Definition getenv (w : World) (name : string) : option string :=
  if String.eqb name "MYSQL_DATABASE" then Some "business" else None.

Definition python_int (text : string) : Server.outcome Z :=
  if String.eqb text "3306" then Server.Done 3306%Z
  else Server.Fails
         {| Server.kind := Server.ValueError;
            Server.text := "invalid literal for int() with base 10: '"
                           +:+ text +:+ "'" |}.

Definition mysql_connect (w : World) (host : string) (port : Z)
           (database user password : option string)
  : Server.outcome nat * World := (Server.Done 1, w).

Definition is_connected (w : World) (h : nat) : bool := true.

Definition close (w : World) (h : nat) : Server.outcome unit * World :=
  (Server.Done tt, w).

Definition run_query (w : World) (h : nat) (query : string)
           (params : option (list json))
  : Server.outcome (Server.Fetched (Row := list (string * json))) * World :=
  (Server.Done {| Server.fetched_rows := [];
                  Server.fetched_column_names := [];
                  Server.fetched_rowcount := 0 |},
   (w ++ [query])%list).

(** A stand-in for [json.dumps]: the title of the response. *)
Definition dumps (response : json) : string :=
  match response with
  | JObj (("title", JStr title) :: _) => title
  | _ => ""
  end.

Definition dumps_result
           (selected : Server.Selected (Row := list (string * json)))
  : Server.outcome string :=
  Server.Done ("Query Results: " +:+ Server.sel_query selected).

End DemoDb.

(** * Properties *)

Local Open Scope list_scope.

Section Properties.

Context {World : Type}.
Variable json_loads : string -> result json.
Variable create :
  World -> list Turn -> option (list Tool) ->
  result ChatCompletionMessage * World.
Variable create_stream :
  World -> list Turn -> option (list Tool) ->
  result (list (result Chunk)) * World.
Variable call_tool : World -> string -> call_args -> result string * World.

Implicit Types (self : Integration World) (t : Turn) (e : exn).

Local Abbreviation execute := (_execute_tool_call call_tool).
Local Abbreviation handle := (handle_tool_call json_loads call_tool).
Local Abbreviation loop := (chat_loop json_loads create call_tool).
Local Abbreviation chat' := (chat json_loads create call_tool).
Local Abbreviation request := (request_completion create).
Local Abbreviation anext' := (anext create_stream).
Local Abbreviation consume' := (consume create_stream).

(** ** Steps on the object *)

Lemma append_run t self :
  append t self =
  (Returned tt,
   {| conversation_history := conversation_history self ++ [t];
      tools := tools self; env := env self |}).
Proof. reflexivity. Qed.

Lemma open_turn_run um sp self :
  exists self',
    open_turn um sp self = (Returned tt, self') /\
    conversation_history self' =
      conversation_history self ++
      opening_turns um sp (conversation_history self) /\
    tools self' = tools self /\ env self' = env self.
Proof.
  unfold open_turn, opening_turns, bind.
  destruct (truthy_str sp && _) eqn:E; simpl.
  - eexists; split; [reflexivity|]. simpl.
    rewrite <- app_assoc. auto.
  - eexists; split; [reflexivity|]. simpl. auto.
Qed.

Lemma provider_call_frame name a self :
  exists r w,
    provider_call call_tool name a self = (r, with_env self w) /\
    call_tool (env self) name a = (r, w).
Proof.
  unfold provider_call.
  destruct (call_tool (env self) name a) as [r w]. eauto.
Qed.

(** ** The tool invoker *)

Lemma execute_tool_call_returns (name : string) (arguments : json) self :
  exists text self',
    execute name arguments self = (Returned text, self') /\
    conversation_history self' = conversation_history self /\
    tools self' = tools self.
Proof.
  unfold _execute_tool_call, provider_call, try_except, bind, eval, ret.
  destruct (call_tool (env self) name (ArgumentsParam arguments))
    as [[text|e] w]; [eauto|].
  destruct (is_TypeError e); [|eauto].
  destruct (unpack_kwargs arguments) as [kwargs|e2]; [|eauto].
  simpl. destruct (call_tool w name (Keywords kwargs)) as [[text|e2] w2];
    eauto.
Qed.

(** C4.  [_execute_tool_call] returns a text for every tool name, every
    decoded argument value and every behaviour of the provider: it never
    raises and leaves history and tools alone.  The text is what a provider
    call returned, or, after a failure (of a provider call or of the
    keyword unpacking), the text of that failure behind the tag
    "Error calling tool <name>: ". *)
Theorem execute_tool_call_never_raises
        (name : string) (arguments : json) self :
  exists text self',
    execute name arguments self = (Returned text, self') /\
    conversation_history self' = conversation_history self /\
    tools self' = tools self /\
    ((exists w a w', call_tool w name a = (Returned text, w')) \/
     (exists e,
         ((exists w a w', call_tool w name a = (Raised e, w')) \/
          unpack_kwargs arguments = Raised e) /\
         text = "Error calling tool " +:+ name +:+ ": " +:+ exn_str e)).
Proof.
  unfold _execute_tool_call. unfold try_except at 1.
  destruct (provider_call_frame name (ArgumentsParam arguments) self)
    as (r & w & -> & Hc).
  destruct r as [text|e].
  { exists text, (with_env self w). repeat split; eauto. }
  destruct (is_TypeError e).
  - unfold try_except, bind, eval.
    destruct (unpack_kwargs arguments) as [kwargs|e2] eqn:Hu.
    + destruct (provider_call_frame name (Keywords kwargs) (with_env self w))
        as (r2 & w2 & -> & Hc2).
      destruct r2 as [text|e2].
      * eexists _, _. repeat split; eauto.
      * eexists _, _. split; [reflexivity|]. repeat split.
        right. exists e2. split; [eauto|reflexivity].
    + eexists _, _. split; [reflexivity|]. repeat split.
      right. exists e2. split; [eauto|reflexivity].
  - eexists _, _. split; [reflexivity|]. repeat split.
    right. exists e. split; [eauto|reflexivity].
Qed.

(** ** One pass of the loop *)

Lemma handle_tool_call_decodable (c : ToolCall) self :
  decodable json_loads c ->
  exists text self',
    handle c self = (Returned tt, self') /\
    conversation_history self' =
      conversation_history self ++ [tool_turn (tc_id c) text] /\
    tools self' = tools self.
Proof.
  intros [function_args Hd].
  unfold handle_tool_call, bind, eval, try_except. rewrite Hd.
  destruct (execute_tool_call_returns (fn_name c) function_args self)
    as (text & self1 & -> & Hh & Ht).
  exists text. eexists. split; [reflexivity|]. simpl.
  rewrite Hh, Ht. auto.
Qed.

(** The decoding stands before the [try]: its failure leaves the loop
    body, and with it [chat], as an exception; no tool turn is appended
    for the request. *)
Lemma handle_tool_call_undecodable (c : ToolCall) e self :
  json_loads (fn_arguments c) = Raised e ->
  handle c self = (Raised e, self).
Proof.
  intros Hd. unfold handle_tool_call, bind, eval. now rewrite Hd.
Qed.

Lemma for_each_handle_decodable (calls : list ToolCall) :
  Forall (decodable json_loads) calls ->
  forall self,
  exists results self',
    for_each calls handle self = (Returned tt, self') /\
    length results = length calls /\
    conversation_history self' =
      conversation_history self ++
      zip_with tool_turn (map tc_id calls) results /\
    tools self' = tools self.
Proof.
  induction 1 as [|c calls Hc _ IH]; intros self.
  - exists [], self. simpl. rewrite app_nil_r. auto.
  - destruct (handle_tool_call_decodable c self Hc)
      as (text & self1 & Hrun & Hh & Ht).
    destruct (IH self1) as (results & self2 & Hrun2 & Hlen & Hh2 & Ht2).
    exists (text :: results), self2.
    cbn [for_each]. unfold bind at 1. rewrite Hrun, Hrun2.
    repeat split.
    + simpl. now rewrite Hlen.
    + rewrite Hh2, Hh, <- app_assoc. reflexivity.
    + congruence.
Qed.

Lemma chat_loop_step remaining self :
  loop (S remaining) self =
  match request self with
  | (Returned assistant_message, self1) =>
      let self2 := snd (append (message_dict assistant_message) self1) in
      if negb (truthy_list (msg_tool_calls assistant_message))
      then (Returned (or_empty (msg_content assistant_message)), self2)
      else
        match for_each (calls_of (msg_tool_calls assistant_message))
                       handle self2 with
        | (Returned _, self3) => loop remaining self3
        | (Raised e, self3) => (Raised e, self3)
        end
  | (Raised e, self1) => (Raised e, self1)
  end.
Proof.
  cbn [chat_loop]. unfold bind at 1.
  destruct (request self) as [[assistant_message|e] self1]; [|reflexivity].
  unfold bind at 1. rewrite append_run. cbn [snd].
  destruct (negb _); [reflexivity|].
  unfold bind at 1. reflexivity.
Qed.

Lemma request_run self :
  request self =
  (fst (create (env self) (conversation_history self) (tools_or_none self)),
   with_env self
     (snd (create (env self) (conversation_history self)
                  (tools_or_none self)))).
Proof.
  unfold request_completion. now destruct (create _ _ _).
Qed.

(** The dict that [chat] builds of the model's message, field by field:
    the calls are copied one by one, and the key is there only for a
    non-empty list. *)
Lemma message_dict_fields (assistant_message : ChatCompletionMessage) :
  message_dict assistant_message =
  {| role := assistant;
     content := msg_content assistant_message;
     tool_calls :=
       match calls_of (msg_tool_calls assistant_message) with
       | [] => None
       | _ :: _ => Some (calls_of (msg_tool_calls assistant_message))
       end;
     tool_call_id := None |}.
Proof.
  unfold message_dict. f_equal.
  assert (Hcopy : forall calls : list ToolCall,
             map (fun tc => {| tc_id := tc_id tc; tc_type := tc_type tc;
                               fn_name := fn_name tc;
                               fn_arguments := fn_arguments tc |}) calls
             = calls).
  { induction calls as [|[] calls IH]; [reflexivity|].
    cbn [map]. now rewrite IH. }
  rewrite Hcopy.
  now destruct (msg_tool_calls assistant_message) as [[|c cs]|].
Qed.

Lemma zip_with_map_l {A B C D : Type} (f : B -> C -> D) (g : A -> B)
      (xs : list A) :
  forall ys : list C,
    zip_with f (map g xs) ys = zip_with (fun x => f (g x)) xs ys.
Proof.
  induction xs as [|x xs IH]; intros [|y ys]; cbn; [reflexivity..|].
  now rewrite IH.
Qed.

(** A pass on an assistant turn whose requests all decode. *)
Lemma chat_loop_pass_decodable
        (remaining : nat) self (assistant_message : ChatCompletionMessage)
        (w : World) :
  create (env self) (conversation_history self) (tools_or_none self)
    = (Returned assistant_message, w) ->
  Forall (decodable json_loads)
         (calls_of (msg_tool_calls assistant_message)) ->
  let calls := calls_of (msg_tool_calls assistant_message) in
  exists (results : list string) self',
    length results = length calls /\
    conversation_history self' =
      conversation_history self ++
      message_dict assistant_message
        :: zip_with tool_turn (map tc_id calls) results /\
    match calls with
    | [] =>
        loop (S remaining) self =
        (Returned (or_empty (msg_content assistant_message)), self')
    | _ :: _ => loop (S remaining) self = loop remaining self'
    end.
Proof.
  intros Hcreate Hdec calls.
  rewrite chat_loop_step, request_run, Hcreate. cbn [fst snd].
  rewrite append_run. cbn [snd].
  set (self2 := {| conversation_history := _ |}).
  destruct (for_each_handle_decodable _ Hdec self2)
    as (results & self3 & Hrun & Hlen & Hh & Ht).
  fold calls in Hrun, Hlen, Hh.
  destruct (msg_tool_calls assistant_message) as [[|c cs]|] eqn:Hcalls;
    cbn [truthy_list negb calls_of] in *.
  - exists [], self2. subst calls. simpl. auto.
  - exists results, self3. subst calls. split; [assumption|].
    split.
    + rewrite Hh. subst self2. cbn [conversation_history].
      rewrite <- app_assoc. reflexivity.
    + now rewrite Hrun.
  - exists [], self2. subst calls. simpl. auto.
Qed.

(** C2.  When the model's assistant turn carries the tool-call requests
    [calls], all with decodable arguments, the pass appends the assistant
    turn and then exactly one tool turn per request, in the order of the
    requests: a dict with role [tool], the result text as content, and as
    [tool_call_id] the id of its request.  Only then does the loop go on:
    the rest of [chat] is the loop run on the history that already holds
    all these turns, and its first action is the next model request.  With
    no request the pass returns instead. *)
Theorem chat_appends_one_tool_turn_per_call
        (remaining : nat) self (assistant_message : ChatCompletionMessage)
        (w : World) :
  create (env self) (conversation_history self) (tools_or_none self)
    = (Returned assistant_message, w) ->
  Forall (decodable json_loads)
         (calls_of (msg_tool_calls assistant_message)) ->
  let calls := calls_of (msg_tool_calls assistant_message) in
  exists (results : list string) self',
    length results = length calls /\
    conversation_history self' =
      conversation_history self ++
      {| role := assistant;
         content := msg_content assistant_message;
         tool_calls := match calls with [] => None | _ :: _ => Some calls end;
         tool_call_id := None |}
        :: zip_with (fun tool_call tool_result =>
                       {| role := tool;
                          content := Some tool_result;
                          tool_calls := None;
                          tool_call_id := Some (tc_id tool_call) |})
                    calls results /\
    match calls with
    | [] =>
        loop (S remaining) self =
        (Returned (or_empty (msg_content assistant_message)), self')
    | _ :: _ => loop (S remaining) self = loop remaining self'
    end.
Proof.
  intros Hcreate Hdec calls.
  destruct (chat_loop_pass_decodable remaining self assistant_message w
              Hcreate Hdec)
    as (results & self' & Hlen & Hh & Hrun).
  fold calls in Hlen, Hh, Hrun.
  assert (Hturns :
            zip_with tool_turn (map tc_id calls) results =
            zip_with (fun tool_call tool_result =>
                        {| role := tool;
                           content := Some tool_result;
                           tool_calls := None;
                           tool_call_id := Some (tc_id tool_call) |})
                     calls results)
    by apply zip_with_map_l.
  rewrite message_dict_fields, Hturns in Hh. fold calls in Hh.
  exists results, self'. auto.
Qed.

(** C6.  When the model's assistant turn carries no tool calls, the pass
    appends that turn and [chat] returns its content, the empty string
    when the content is [None]. *)
Theorem chat_returns_content_without_tool_calls
        (remaining : nat) self (assistant_message : ChatCompletionMessage)
        (w : World) :
  create (env self) (conversation_history self) (tools_or_none self)
    = (Returned assistant_message, w) ->
  truthy_list (msg_tool_calls assistant_message) = false ->
  loop (S remaining) self =
  (Returned match msg_content assistant_message with
            | Some text => text
            | None => ""
            end,
   {| conversation_history :=
        conversation_history self ++
        [{| role := assistant; content := msg_content assistant_message;
            tool_calls := None; tool_call_id := None |}];
      tools := tools self;
      env := w |}).
Proof.
  intros Hcreate Hnone.
  rewrite chat_loop_step, request_run, Hcreate. cbn [fst snd].
  rewrite append_run, Hnone. cbn [negb snd].
  unfold message_dict. rewrite Hnone. reflexivity.
Qed.

Lemma chat_run um sp mi self :
  chat' um sp mi self =
  loop (Z.to_nat mi) (snd (open_turn um sp self)).
Proof.
  unfold chat, bind.
  destruct (open_turn_run um sp self) as (self0 & Hrun & _).
  now rewrite Hrun.
Qed.

(** When the first request of an assistant turn does not decode, the
    exception of [json.loads] ends the pass and the loop: only the
    assistant turn has been appended. *)
Lemma chat_loop_raises_on_undecodable
      (remaining : nat) self (assistant_message : ChatCompletionMessage)
      (w : World) (c : ToolCall) (cs : list ToolCall) e :
  create (env self) (conversation_history self) (tools_or_none self)
    = (Returned assistant_message, w) ->
  msg_tool_calls assistant_message = Some (c :: cs) ->
  json_loads (fn_arguments c) = Raised e ->
  loop (S remaining) self =
  (Raised e,
   {| conversation_history :=
        conversation_history self ++ [message_dict assistant_message];
      tools := tools self;
      env := w |}).
Proof.
  intros Hcreate Hcalls Hd.
  rewrite chat_loop_step, request_run, Hcreate. cbn [fst snd].
  rewrite append_run, Hcalls. cbn [truthy_list negb calls_of snd for_each].
  unfold bind at 1.
  rewrite (handle_tool_call_undecodable c e _ Hd). reflexivity.
Qed.

(** ** The budget *)

Lemma round_turns_assistants (round : ChatCompletionMessage * list string) :
  filter is_assistant (round_turns round) = [message_dict (fst round)].
Proof.
  unfold round_turns.
  generalize (map tc_id (calls_of (msg_tool_calls (fst round)))) as ids.
  generalize (snd round) as results.
  intros results ids.
  assert (H : filter is_assistant (zip_with tool_turn ids results) = []).
  { revert results. induction ids as [|i ids IH]; intros [|r results];
      simpl; auto.
    rewrite filter_cons_False; [apply IH|]. cbn. auto. }
  rewrite filter_cons_True by (cbn; auto). now rewrite H.
Qed.

Lemma chat_loop_exhausts_budget :
  (forall w h ts, exists assistant_message w',
      create w h ts = (Returned assistant_message, w') /\
      truthy_list (msg_tool_calls assistant_message) = true /\
      Forall (decodable json_loads)
             (calls_of (msg_tool_calls assistant_message))) ->
  forall (remaining : nat) self,
  exists (rounds : list (ChatCompletionMessage * list string)) self',
    loop remaining self = (Returned BUDGET_EXHAUSTED, self') /\
    length rounds = remaining /\
    Forall (fun round =>
              truthy_list (msg_tool_calls (fst round)) = true /\
              length (snd round) =
              length (calls_of (msg_tool_calls (fst round)))) rounds /\
    conversation_history self' =
      conversation_history self ++ concat (map round_turns rounds) /\
    tools self' = tools self.
Proof.
  intros Hmodel. induction remaining as [|remaining IH]; intros self.
  - exists [], self. simpl. rewrite app_nil_r. auto.
  - destruct (Hmodel (env self) (conversation_history self)
                     (tools_or_none self))
      as (assistant_message & w & Hcreate & Htruthy & Hdec).
    rewrite chat_loop_step, request_run, Hcreate. cbn [fst snd].
    rewrite append_run, Htruthy. cbn [negb snd].
    set (self2 := {| conversation_history := _ |}).
    destruct (for_each_handle_decodable _ Hdec self2)
      as (results & self3 & -> & Hlen & Hh & Ht).
    destruct (IH self3) as (rounds & self4 & Hrun & Hn & Hall & Hh4 & Ht4).
    exists ((assistant_message, results) :: rounds), self4.
    split; [assumption|]. split; [simpl; congruence|].
    split; [constructor; auto|]. split.
    + rewrite Hh4, Hh. subst self2. cbn [conversation_history].
      cbn [map concat]. unfold round_turns at 2. cbn [fst snd].
      rewrite <- !app_assoc. reflexivity.
    + rewrite Ht4, Ht. reflexivity.
Qed.

(** The budget when every argument text decodes.  For a model that
    answers every request with at least one tool call, all with decodable
    arguments, [chat] makes exactly [max(0, max_iterations)] passes, one
    model request each, and returns the fixed budget text: the history
    gains the opening turns and then that many rounds, each one assistant
    turn followed by its tool turns.  With [max_iterations = 1] this is one
    round. *)
Lemma chat_returns_budget_text_after_max_iterations
        (um : string) (sp : option string) (mi : Z) self :
  (forall w h ts, exists assistant_message w',
      create w h ts = (Returned assistant_message, w') /\
      truthy_list (msg_tool_calls assistant_message) = true /\
      Forall (decodable json_loads)
             (calls_of (msg_tool_calls assistant_message))) ->
  exists (rounds : list (ChatCompletionMessage * list string)) self',
    chat' um sp mi self =
      (Returned
         "Maximum iterations reached. Please try again with a simpler request.",
       self') /\
    Z.of_nat (length rounds) = Z.max 0 mi /\
    Forall (fun round =>
              truthy_list (msg_tool_calls (fst round)) = true /\
              length (snd round) =
              length (calls_of (msg_tool_calls (fst round)))) rounds /\
    conversation_history self' =
      conversation_history self ++
      opening_turns um sp (conversation_history self) ++
      concat (map round_turns rounds) /\
    length (filter is_assistant (concat (map round_turns rounds))) =
      length rounds.
Proof.
  intros Hmodel. rewrite chat_run.
  destruct (open_turn_run um sp self) as (self0 & Hopen & Hh0 & _).
  rewrite Hopen. cbn [snd].
  destruct (chat_loop_exhausts_budget Hmodel (Z.to_nat mi) self0)
    as (rounds & self' & Hrun & Hn & Hall & Hh & _).
  exists rounds, self'. split; [exact Hrun|].
  split; [lia|]. split; [exact Hall|]. split.
  - now rewrite Hh, Hh0, <- app_assoc.
  - clear. induction rounds as [|r rounds IH]; [reflexivity|].
    cbn [map concat]. rewrite filter_app, length_app, IH.
    now rewrite round_turns_assistants.
Qed.

(** ** What the operations add to the history *)

Lemma grows_ok_refl self : grows_ok self self.
Proof. exists []. now rewrite app_nil_r. Qed.

Lemma grows_ok_trans self1 self2 self3 :
  grows_ok self1 self2 -> grows_ok self2 self3 -> grows_ok self1 self3.
Proof.
  intros (a & Ha & Oa) (b & Hb & Ob). exists (a ++ b). split.
  - now rewrite Hb, Ha, app_assoc.
  - unfold history_ok in *. rewrite forallb_app, Oa, Ob. reflexivity.
Qed.

Lemma grows_ok_same_history self self' :
  conversation_history self' = conversation_history self ->
  grows_ok self self'.
Proof. intros H. exists []. now rewrite app_nil_r. Qed.

Lemma grows_ok_append t self :
  assistant_calls_ok t = true -> grows_ok self (snd (append t self)).
Proof.
  intros Ht. exists [t]. split; [reflexivity|].
  unfold history_ok. simpl. now rewrite Ht.
Qed.

Lemma grows_ok_invariant self self' :
  grows_ok self self' ->
  history_ok (conversation_history self) = true ->
  history_ok (conversation_history self') = true.
Proof.
  intros (added & -> & Hok) H. unfold history_ok in *.
  now rewrite forallb_app, H, Hok.
Qed.

Lemma message_dict_ok (assistant_message : ChatCompletionMessage) :
  assistant_calls_ok (message_dict assistant_message) = true.
Proof.
  unfold assistant_calls_ok, message_dict. cbn [role tool_calls].
  now destruct (msg_tool_calls assistant_message) as [[|c cs]|].
Qed.

Lemma grows_ok_open_turn um sp self :
  grows_ok self (snd (open_turn um sp self)).
Proof.
  destruct (open_turn_run um sp self) as (self0 & -> & Hh & _).
  exists (opening_turns um sp (conversation_history self)).
  split; [exact Hh|]. unfold opening_turns.
  now destruct (truthy_str sp && _).
Qed.

Lemma grows_ok_handle (c : ToolCall) self :
  grows_ok self (snd (handle c self)).
Proof.
  unfold handle_tool_call, bind, eval, try_except.
  destruct (json_loads (fn_arguments c)) as [function_args|e];
    [|apply grows_ok_refl].
  destruct (execute_tool_call_returns (fn_name c) function_args self)
    as (text & self1 & -> & Hh & _).
  eapply grows_ok_trans; [apply grows_ok_same_history, Hh|].
  now apply grows_ok_append.
Qed.

Lemma grows_ok_for_each (calls : list ToolCall) self :
  grows_ok self (snd (for_each calls handle self)).
Proof.
  revert self. induction calls as [|c calls IH]; intros self.
  - apply grows_ok_refl.
  - cbn [for_each]. unfold bind at 1.
    pose proof (grows_ok_handle c self) as Hc.
    destruct (handle c self) as [[[]|e] self1]; cbn [snd] in *.
    + eapply grows_ok_trans; [exact Hc|apply IH].
    + exact Hc.
Qed.

Lemma grows_ok_loop (remaining : nat) self :
  grows_ok self (snd (loop remaining self)).
Proof.
  revert self. induction remaining as [|remaining IH]; intros self.
  - apply grows_ok_refl.
  - rewrite chat_loop_step, request_run.
    destruct (create _ _ _) as [[assistant_message|e] w]; cbn [fst snd];
      [|now apply grows_ok_same_history].
    set (self1 := with_env self w).
    assert (H1 : grows_ok self self1) by now apply grows_ok_same_history.
    pose proof (grows_ok_append (message_dict assistant_message) self1
                                (message_dict_ok _)) as H2.
    destruct (negb _); cbn [snd].
    { exact (grows_ok_trans _ _ _ H1 H2). }
    pose proof (grows_ok_for_each
                  (calls_of (msg_tool_calls assistant_message))
                  (snd (append (message_dict assistant_message) self1)))
      as H3.
    destruct (for_each _ _ _) as [[[]|e] self3]; cbn [snd] in *.
    + eapply grows_ok_trans; [exact H1|].
      eapply grows_ok_trans; [exact H2|].
      eapply grows_ok_trans; [exact H3|apply IH].
    + exact (grows_ok_trans _ _ _ H1 (grows_ok_trans _ _ _ H2 H3)).
Qed.

Lemma grows_ok_chat um sp mi self :
  grows_ok self (snd (chat' um sp mi self)).
Proof.
  rewrite chat_run.
  eapply grows_ok_trans; [apply grows_ok_open_turn|apply grows_ok_loop].
Qed.

Lemma grows_ok_resume (stream : list (result Chunk))
      (collected : list string) self :
  grows_ok self (snd (resume stream collected self)).
Proof.
  revert collected. induction stream as [|[chunk|e] stream IH];
    intros collected; cbn [resume].
  - cbn [snd]. now apply grows_ok_append.
  - destruct (truthy_str (delta_content chunk)); [apply grows_ok_refl|].
    apply IH.
  - apply grows_ok_refl.
Qed.

Lemma grows_ok_anext (g : Generator) self :
  grows_ok self (snd (anext' g self)).
Proof.
  destruct g as [um sp|stream collected|]; cbn [anext].
  - unfold bind.
    pose proof (grows_ok_open_turn um sp self) as H0.
    destruct (open_turn um sp self) as [[[]|e] self0]; cbn [snd] in *;
      [|exact H0].
    unfold request_stream.
    destruct (create_stream _ _ _) as [[stream|e] w].
    + eapply grows_ok_trans; [exact H0|].
      eapply grows_ok_trans; [|apply grows_ok_resume].
      now apply grows_ok_same_history.
    + cbn [snd]. eapply grows_ok_trans; [exact H0|].
      now apply grows_ok_same_history.
  - apply grows_ok_resume.
  - apply grows_ok_refl.
Qed.

(** C10.  Every operation on the object keeps the invariant that an
    assistant turn of the history has no [tool_calls] key or a non-empty
    list under it: [chat] however it ends, each step of a
    [chat_streaming] generator, its abandonment, [reset_conversation] and
    [get_conversation_history]. *)
Theorem assistant_tool_calls_never_empty self :
  history_ok (conversation_history self) = true ->
  (forall um sp mi,
      history_ok (conversation_history (snd (chat' um sp mi self))) = true) /\
  (forall g : Generator,
      history_ok (conversation_history (snd (anext' g self))) = true) /\
  (forall g : Generator,
      history_ok (conversation_history (snd (aclose g self))) = true) /\
  history_ok (conversation_history (reset_conversation self)) = true /\
  history_ok (get_conversation_history self) = true.
Proof.
  intros Hok. split; [|split; [|split; [|split]]].
  - intros um sp mi.
    exact (grows_ok_invariant _ _ (grows_ok_chat um sp mi self) Hok).
  - intros g. exact (grows_ok_invariant _ _ (grows_ok_anext g self) Hok).
  - intros g. exact Hok.
  - reflexivity.
  - exact Hok.
Qed.

(** ** Calls that the model answers at once *)

Local Abbreviation chat_call' := (chat_call json_loads create call_tool).
Local Abbreviation chat_calls' := (chat_calls json_loads create call_tool).

Lemma opening_turns_length um sp (history : list Turn) :
  length (opening_turns um sp history) =
  match history with
  | [] => if truthy_str sp then 2 else 1
  | _ :: _ => 1
  end.
Proof.
  unfold opening_turns.
  destruct (truthy_str sp), history; reflexivity.
Qed.

Lemma chat_call_answers_plainly (c : ChatCall) self :
  answers_plainly create c self = true ->
  exists (assistant_message : ChatCompletionMessage) self',
    chat_call' c self =
      (Returned (or_empty (msg_content assistant_message)), self') /\
    conversation_history self' =
      conversation_history self ++
      opening_turns (user_message c) (system_prompt c)
                    (conversation_history self) ++
      [message_dict assistant_message].
Proof.
  unfold answers_plainly, chat_call. intros H.
  apply andb_prop in H as [Hmi H]. apply Z.ltb_lt in Hmi.
  rewrite chat_run.
  destruct (open_turn_run (user_message c) (system_prompt c) self)
    as (self0 & Hopen & Hh0 & _).
  rewrite Hopen in *. cbn [snd] in *.
  destruct (Z.to_nat (max_iterations c)) as [|remaining] eqn:Hn; [lia|].
  rewrite chat_loop_step.
  destruct (request self0) as [[assistant_message|e] self1] eqn:Hreq;
    [|discriminate].
  rewrite H. rewrite request_run in Hreq. injection Hreq as _ <-.
  exists assistant_message. eexists. split; [reflexivity|].
  cbn. now rewrite Hh0, <- app_assoc.
Qed.

(** C5, as the code has it.  After N [chat] calls, each answered by the
    model without tool calls, the history is longer by 2N (a user turn
    and an assistant turn per call), and by one more when the history
    was empty and the first call came with a non-empty system prompt:
    that call puts the system turn in front. *)
Theorem history_length_after_plain_calls (cs : list ChatCall) self :
  all_answer_plainly json_loads create call_tool cs self = true ->
  length (conversation_history (chat_calls' cs self)) =
  length (conversation_history self) + 2 * length cs +
  match cs, conversation_history self with
  | c :: _, [] => if truthy_str (system_prompt c) then 1 else 0
  | _, _ => 0
  end.
Proof.
  revert self. induction cs as [|c cs IH]; intros self Hall.
  - simpl. lia.
  - cbn [all_answer_plainly chat_calls] in *.
    apply andb_prop in Hall as [Hc Hall].
    destruct (chat_call_answers_plainly c self Hc)
      as (assistant_message & self' & Hrun & Hh).
    fold chat_call' in Hall. rewrite Hrun in *. cbn [snd] in *.
    rewrite (IH self' Hall), Hh, !length_app, opening_turns_length.
    assert (Hne : exists t l,
               conversation_history self ++
               opening_turns (user_message c) (system_prompt c)
                             (conversation_history self) ++
               [message_dict assistant_message] = t :: l).
    { destruct (conversation_history self); simpl; eauto.
      unfold opening_turns. destruct (truthy_str _ && _); simpl; eauto. }
    destruct Hne as (t & l & ->).
    cbn [length].
    destruct cs, (conversation_history self), (truthy_str (system_prompt c));
      cbn [length]; lia.
Qed.

(** ** The streaming generator *)

Lemma open_turn_eq um sp self :
  open_turn um sp self =
  (Returned tt,
   {| conversation_history :=
        conversation_history self ++
        opening_turns um sp (conversation_history self);
      tools := tools self;
      env := env self |}).
Proof.
  unfold open_turn, opening_turns, bind.
  destruct (truthy_str sp && _); simpl; [|reflexivity].
  rewrite append_run. cbn [conversation_history tools env].
  now rewrite <- app_assoc.
Qed.

Lemma anext_created um sp self (stream : list (result Chunk)) (w : World) :
  create_stream (env self)
                (conversation_history self ++
                 opening_turns um sp (conversation_history self))
                (tools_or_none self) = (Returned stream, w) ->
  anext' (Created um sp) self =
  resume stream []
         {| conversation_history :=
              conversation_history self ++
              opening_turns um sp (conversation_history self);
            tools := tools self;
            env := w |}.
Proof.
  intros Hs. cbn [anext]. unfold bind. rewrite open_turn_eq.
  unfold request_stream, tools_or_none in *.
  cbn [env conversation_history tools].
  now rewrite Hs.
Qed.

(** When the stream cannot be opened, the generator fails with the opening
    turns appended and no assistant turn. *)
Lemma anext_created_fails um sp self e (w : World) :
  create_stream (env self)
                (conversation_history self ++
                 opening_turns um sp (conversation_history self))
                (tools_or_none self) = (Raised e, w) ->
  anext' (Created um sp) self =
  (Failed e, Closed,
   {| conversation_history :=
        conversation_history self ++
        opening_turns um sp (conversation_history self);
      tools := tools self;
      env := w |}).
Proof.
  intros Hs. cbn [anext]. unfold bind. rewrite open_turn_eq.
  unfold request_stream, tools_or_none in *.
  cbn [env conversation_history tools].
  now rewrite Hs.
Qed.

Lemma resume_yields (stream : list (result Chunk)) :
  forall (collected : list string) self (f : string) (fs : list string),
    fragments_of stream = f :: fs ->
    exists rest,
      resume stream collected self =
        (Yielded f, Suspended rest (collected ++ [f]), self) /\
      fragments_of rest = fs /\
      (Forall delivered stream -> Forall delivered rest).
Proof.
  induction stream as [|[chunk|e] stream IH]; intros collected self f fs Hf;
    cbn [fragments_of resume] in *; try discriminate.
  destruct (truthy_str (delta_content chunk)).
  - injection Hf as <- <-. exists stream. repeat split.
    intros H. now inversion H.
  - destruct (IH collected self f fs Hf) as (rest & Hr & Hfs & Hd).
    exists rest. repeat split; auto.
    intros H. apply Hd. now inversion H.
Qed.

Lemma resume_ends (stream : list (result Chunk)) :
  forall (collected : list string) self,
    Forall delivered stream ->
    fragments_of stream = [] ->
    resume stream collected self =
    (StopAsyncIteration, Closed,
     {| conversation_history :=
          conversation_history self ++
          [assistant_turn (String.concat "" collected)];
        tools := tools self;
        env := env self |}).
Proof.
  induction stream as [|[chunk|e] stream IH]; intros collected self Hd Hf;
    cbn [fragments_of resume] in *.
  - reflexivity.
  - destruct (truthy_str (delta_content chunk)); [discriminate|].
    apply IH; [now inversion Hd|assumption].
  - inversion Hd as [|? ? [chunk Hc] _]. discriminate.
Qed.

Lemma consume_suspended (n : nat) :
  forall (stream : list (result Chunk)) (collected : list string) self,
    n <= length (fragments_of stream) ->
    exists rest,
      consume' n (Suspended stream collected) self =
        (take n (fragments_of stream),
         Suspended rest (collected ++ take n (fragments_of stream)),
         self) /\
      fragments_of rest = drop n (fragments_of stream) /\
      (Forall delivered stream -> Forall delivered rest).
Proof.
  induction n as [|n IH]; intros stream collected self Hn.
  - exists stream. cbn. rewrite app_nil_r. auto.
  - destruct (fragments_of stream) as [|f fs] eqn:Hf; [simpl in Hn; lia|].
    destruct (resume_yields stream collected self f fs Hf)
      as (rest & Hr & Hfs & Hd).
    destruct (IH rest (collected ++ [f]) self) as (rest' & Hc & Hfs' & Hd').
    { rewrite Hfs. simpl in Hn. lia. }
    exists rest'. cbn [consume anext]. rewrite Hr, Hc, Hfs.
    cbn [take drop]. rewrite <- app_assoc. cbn [app].
    repeat split; [congruence|auto].
Qed.

(** C7.  A [chat_streaming] call whose stream holds the fragments [fs]:
    while the caller has taken [n] of them, the history holds the opening
    turns of the call and nothing more (nothing at all before the first
    fragment is asked for).  If the caller gives the generator up there,
    it is closed and no assistant turn, whole or partial, is added by it
    afterwards.  If the stream is read to its end, the step that finds the
    end appends one turn: a dict with role [assistant] and, as content,
    the concatenation of all the fragments. *)
Theorem chat_streaming_commits_when_drained
        (um : string) (sp : option string) self
        (stream : list (result Chunk)) (w : World) (n : nat) :
  let opened := conversation_history self ++
                opening_turns um sp (conversation_history self) in
  let fs := fragments_of stream in
  create_stream (env self) opened (tools_or_none self)
    = (Returned stream, w) ->
  n <= length fs ->
  exists (g : Generator) self_n,
    consume' n (chat_streaming um sp) self = (take n fs, g, self_n) /\
    conversation_history self_n =
      match n with
      | O => conversation_history self
      | S _ => opened
      end /\
    anext' (fst (aclose g self_n)) (snd (aclose g self_n)) =
      (StopAsyncIteration, Closed, self_n) /\
    (n = length fs ->
     Forall delivered stream ->
     exists self_end,
       anext' g self_n = (StopAsyncIteration, Closed, self_end) /\
       conversation_history self_end =
         opened ++ [{| role := assistant;
                       content := Some (String.concat "" fs);
                       tool_calls := None;
                       tool_call_id := None |}]).
Proof.
  intros opened fs Hs Hn. unfold chat_streaming.
  destruct n as [|n].
  - exists (Created um sp), self. repeat split.
    intros Hlen Hd.
    assert (Hnil : fragments_of stream = [])
      by (subst fs; now destruct (fragments_of stream)).
    rewrite (anext_created _ _ _ _ _ Hs), resume_ends by assumption.
    eexists. split; [reflexivity|]. subst fs. now rewrite Hnil.
  - subst fs. destruct (fragments_of stream) as [|f fs] eqn:Hf;
      [simpl in Hn; lia|].
    set (self0 := {| conversation_history := opened;
                     tools := tools self; env := w |}).
    destruct (resume_yields stream [] self0 f fs Hf) as (rest & Hr & Hfs & Hd).
    destruct (consume_suspended n rest [f] self0) as (rest' & Hc & Hfs' & Hd').
    { rewrite Hfs. simpl in Hn. lia. }
    exists (Suspended rest' ([f] ++ take n fs)), self0.
    cbn [consume]. rewrite (anext_created _ _ _ _ _ Hs).
    fold opened. fold self0. rewrite Hr. cbn [app]. rewrite Hc, Hfs.
    repeat split.
    intros Hlen Hdel. cbn [anext].
    rewrite resume_ends.
    + eexists. split; [reflexivity|]. cbn [conversation_history self0].
      injection Hlen as Hlen. rewrite Hlen, take_ge by lia. reflexivity.
    + auto.
    + rewrite Hfs', Hfs. injection Hlen as Hlen. rewrite Hlen.
      apply drop_all.
Qed.

End Properties.

(** ** Identity of the history list and of its turns *)

Section StoreFacts.

Implicit Types (self : Store.Object) (h : Store.Heap) (t : Turn).

Lemma new_list_fresh (items : list Store.loc) h (l : Store.loc) :
  is_Some (Store.lists h !! l) -> fst (Store.new_list items h) <> l.
Proof.
  intros Hl Heq. apply elem_of_dom in Hl. rewrite <- Heq in Hl.
  exact (is_fresh _ Hl).
Qed.

Lemma read_new_list (items : list Store.loc) h :
  Store.read (fst (Store.new_list items h)) (snd (Store.new_list items h)) =
  mapM (fun d => Store.dicts h !! d) items.
Proof.
  unfold Store.read, Store.new_list. cbn [fst snd Store.lists Store.dicts].
  now rewrite lookup_insert_eq.
Qed.

(** The sequence that the attribute denotes grows by the appended turn:
    [append] of the orchestration model is what [Store.append_turn] does to
    the list object. *)
Lemma append_turn_read self t h (ts : list Turn) :
  Store.read (Store.history_attr self) h = Some ts ->
  Store.read (Store.history_attr self) (Store.append_turn self t h)
  = Some (ts ++ [t]).
Proof.
  unfold Store.read, Store.append_turn, Store.new_dict, Store.list_mutate.
  cbn [Store.lists Store.dicts].
  destruct (Store.lists h !! Store.history_attr self) as [items|] eqn:Hl;
    [|discriminate].
  intros Hts. rewrite lookup_alter_eq, Hl. cbn [fmap option_fmap option_map].
  apply mapM_Some. apply mapM_Some in Hts.
  apply Forall2_app.
  - eapply Forall2_impl; [exact Hts|]. intros d t' Hd.
    rewrite lookup_insert_ne; [exact Hd|].
    intros <-. apply (is_fresh (dom (Store.dicts h))).
    apply elem_of_dom. eauto.
  - constructor; [|constructor]. apply lookup_insert_eq.
Qed.

(** C8.  After [reset_conversation], [get_conversation_history] hands out
    an empty sequence, whatever the session held; when the system turn is
    appended after the reset, as [reset_session] does, it hands out
    exactly that one system turn.  This holds of the list objects and of
    the sequence that the orchestration model keeps. *)
Theorem reset_then_get_history self h (system_prompt : string) :
  (let h1 := snd (Store.reset_conversation self h) in
   let self1 := fst (Store.reset_conversation self h) in
   Store.read (fst (Store.get_conversation_history self1 h1))
        (snd (Store.get_conversation_history self1 h1)) = Some []) /\
  (let h1 := snd (Store.reset_session self system_prompt h) in
   let self1 := fst (Store.reset_session self system_prompt h) in
   Store.read (fst (Store.get_conversation_history self1 h1))
        (snd (Store.get_conversation_history self1 h1))
   = Some [system_turn system_prompt]) /\
  (forall (World : Type) (session : Integration World),
      get_conversation_history
        (reset_conversation session) = [] /\
      get_conversation_history
        (snd (append (system_turn system_prompt)
                     (reset_conversation session)))
      = [system_turn system_prompt]).
Proof.
  split; [|split].
  - cbn zeta. unfold Store.get_conversation_history. rewrite read_new_list.
    unfold Store.list_items, Store.reset_conversation, Store.new_list.
    cbn [fst snd Store.lists].
    now rewrite lookup_insert_eq.
  - cbn zeta. unfold Store.get_conversation_history. rewrite read_new_list.
    unfold Store.reset_session, Store.reset_conversation, Store.new_list,
      Store.list_items, Store.append_turn, Store.new_dict, Store.list_mutate.
    cbn [fst snd Store.lists Store.dicts Store.history_attr].
    rewrite lookup_alter_eq, lookup_insert_eq.
    cbn [fmap option_fmap option_map default app].
    apply mapM_Some. constructor; [|constructor]. apply lookup_insert_eq.
  - intros World session. split; reflexivity.
Qed.

(** C9, as the code has it.  [Store.get_conversation_history] returns a new
    list object with the items of the history: it reads as the same
    turns, and whatever the caller does to that list (append, remove,
    assign, clear, sort) leaves the session's history as it was.  The
    turns themselves are not copied. *)
Theorem get_conversation_history_copies_the_list
        self h (items : list Store.loc) (f : list Store.loc -> list Store.loc) :
  Store.lists h !! Store.history_attr self = Some items ->
  let r := fst (Store.get_conversation_history self h) in
  let h1 := snd (Store.get_conversation_history self h) in
  r <> Store.history_attr self /\
  Store.read r h1 = Store.read (Store.history_attr self) h /\
  Store.read (Store.history_attr self) h1
  = Store.read (Store.history_attr self) h /\
  Store.read (Store.history_attr self) (Store.list_mutate r f h1)
  = Store.read (Store.history_attr self) h /\
  Store.lists (Store.list_mutate r f h1) !! Store.history_attr self
  = Some items.
Proof.
  intros Hl r h1.
  assert (Hr : r <> Store.history_attr self).
  { apply new_list_fresh. rewrite Hl. eauto. }
  assert (Hitems : Store.list_items (Store.history_attr self) h = items).
  { unfold Store.list_items. now rewrite Hl. }
  split; [exact Hr|]. split; [|split; [|split]].
  - subst r h1. unfold Store.get_conversation_history.
    rewrite read_new_list, Hitems. unfold Store.read. now rewrite Hl.
  - subst h1. unfold Store.read, Store.get_conversation_history, Store.new_list.
    cbn [snd Store.lists Store.dicts]. fold r. now rewrite lookup_insert_ne.
  - subst h1.
    unfold Store.read, Store.list_mutate, Store.get_conversation_history,
      Store.new_list.
    cbn [snd Store.lists Store.dicts]. fold r.
    now rewrite lookup_alter_ne, lookup_insert_ne.
  - subst h1.
    unfold Store.list_mutate, Store.get_conversation_history, Store.new_list.
    cbn [snd Store.lists]. fold r.
    now rewrite lookup_alter_ne, lookup_insert_ne.
Qed.

End StoreFacts.

(** * The statements at concrete sessions *)

Section Examples.

Local Abbreviation demo_chat :=
  (chat Demo.json_loads Demo.create Demo.call_tool).

(** C1.  The model asks for one tool call whose argument text is cut off.
    [json.loads] raises before the [try] is entered: [chat] ends with the
    [JSONDecodeError], no tool turn is appended for the request, and the
    model is not asked again although it had an answer ready. *)
Theorem chat_raises_on_malformed_arguments :
  demo_chat "hi" None 10 Demo.malformed_session =
  (Raised Demo.cut_off_object,
   Demo.session
     [user_turn "hi";
      {| role := assistant; content := None;
         tool_calls := Some [Demo.malformed_call];
         tool_call_id := None |}]
     (Demo.world [Demo.says "done"] [])).
Proof. vm_compute. reflexivity. Qed.

Lemma chat_appends_one_tool_turn_per_call_witness :
  exists (results : list string) self',
    length results = 2 /\
    conversation_history self' =
      [{| role := user; content := Some "hi";
          tool_calls := None; tool_call_id := None |}] ++
      {| role := assistant; content := None;
         tool_calls := Some [Demo.lookup_call; Demo.unknown_call];
         tool_call_id := None |}
        :: zip_with (fun tool_call tool_result =>
                       {| role := tool;
                          content := Some tool_result;
                          tool_calls := None;
                          tool_call_id := Some (tc_id tool_call) |})
                    [Demo.lookup_call; Demo.unknown_call] results /\
    chat_loop Demo.json_loads Demo.create Demo.call_tool 1
              Demo.two_calls_session =
    chat_loop Demo.json_loads Demo.create Demo.call_tool 0 self'.
Proof.
  apply (chat_appends_one_tool_turn_per_call
           Demo.json_loads Demo.create Demo.call_tool
           0 Demo.two_calls_session Demo.two_calls
           (Demo.world [Demo.says "done"] [])).
  - reflexivity.
  - repeat constructor; exists (JObj []); reflexivity.
Defined.

(** C3.  A model that asks for a tool call on every request, here with a
    cut-off argument text, and a budget of one: [chat] ends in the first
    pass with the exception of [json.loads], not with the budget text. *)
Theorem chat_raises_before_budget_on_malformed_arguments :
  (forall (w : Demo.World) h ts,
      exists assistant_message w',
        Demo.create_always Demo.malformed_call w h ts
          = (Returned assistant_message, w') /\
        truthy_list (msg_tool_calls assistant_message) = true) /\
  chat Demo.json_loads (Demo.create_always Demo.malformed_call)
       Demo.call_tool "hi" None 1 (Demo.session [] (Demo.world [] []))
  = (Raised Demo.cut_off_object,
     Demo.session
       [user_turn "hi";
        {| role := assistant; content := None;
           tool_calls := Some [Demo.malformed_call];
           tool_call_id := None |}]
       (Demo.world [] [])).
Proof.
  split.
  - intros w h ts. eexists _, _. split; reflexivity.
  - vm_compute. reflexivity.
Qed.

Lemma chat_returns_budget_text_after_max_iterations_example :
  exists (rounds : list (ChatCompletionMessage * list string))
         (self' : Integration Demo.World),
    chat Demo.json_loads (Demo.create_always Demo.lookup_call)
         Demo.call_tool "hi" None 1 (Demo.session [] (Demo.world [] []))
    = (Returned BUDGET_EXHAUSTED, self') /\
    Z.of_nat (length rounds) = 1%Z /\
    Forall (fun round =>
              truthy_list (msg_tool_calls (fst round)) = true /\
              length (snd round) =
              length (calls_of (msg_tool_calls (fst round)))) rounds /\
    conversation_history self' =
      [] ++ [user_turn "hi"] ++ concat (map round_turns rounds) /\
    length (filter is_assistant (concat (map round_turns rounds))) =
      length rounds.
Proof.
  apply (chat_returns_budget_text_after_max_iterations
           Demo.json_loads (Demo.create_always Demo.lookup_call)
           Demo.call_tool "hi" None 1
           (Demo.session [] (Demo.world [] []))).
  intros w h ts. eexists _, _. split; [reflexivity|].
  split; [reflexivity|].
  repeat constructor. exists (JObj []). reflexivity.
Defined.

(** C5 as stated fails on the module's own example: a new object, the
    first question asked with a system prompt.  One call, three turns. *)
Lemma system_prompt_adds_a_turn :
  all_answer_plainly Demo.json_loads Demo.create Demo.call_tool
                     [Demo.first_question] Demo.fresh_session = true /\
  length (conversation_history
            (chat_calls Demo.json_loads Demo.create Demo.call_tool
                        [Demo.first_question] Demo.fresh_session)) = 3 /\
  3 <> length (conversation_history Demo.fresh_session)
       + 2 * length [Demo.first_question].
Proof.
  split; [reflexivity|]. split; [reflexivity|]. cbn. lia.
Qed.

Lemma history_length_after_plain_calls_witness :
  length (conversation_history
            (chat_calls Demo.json_loads Demo.create Demo.call_tool
                        [Demo.first_question; Demo.first_question]
                        Demo.fresh_session)) = 0 + 2 * 2 + 1.
Proof.
  apply (history_length_after_plain_calls
           Demo.json_loads Demo.create Demo.call_tool
           [Demo.first_question; Demo.first_question] Demo.fresh_session).
  reflexivity.
Defined.

Lemma chat_returns_content_without_tool_calls_witness :
  chat_loop Demo.json_loads Demo.create Demo.call_tool 1
            Demo.silent_session
  = (Returned "",
     Demo.session [user_turn "hi"; Demo.assistant_turn_none]
                  (Demo.world [] [])).
Proof.
  apply (chat_returns_content_without_tool_calls
           Demo.json_loads Demo.create Demo.call_tool
           0 Demo.silent_session Demo.silent (Demo.world [] []));
    reflexivity.
Defined.

Lemma chat_streaming_commits_when_drained_witness :
  (exists (g : Generator) (self_1 : Integration Demo.World),
      consume Demo.create_stream 1 (chat_streaming "hi" None)
              Demo.streaming_session = (["a"], g, self_1) /\
      conversation_history self_1 =
        [{| role := system; content := Some "sys";
            tool_calls := None; tool_call_id := None |};
         {| role := user; content := Some "hi";
            tool_calls := None; tool_call_id := None |}] /\
      anext Demo.create_stream (fst (aclose g self_1)) (snd (aclose g self_1))
      = (StopAsyncIteration, Closed, self_1)) /\
  (exists (g : Generator) (self_5 self_end : Integration Demo.World),
      consume Demo.create_stream 5 (chat_streaming "hi" None)
              Demo.streaming_session
      = (["a"; "b"; "c"; "d"; "e"], g, self_5) /\
      conversation_history self_5 =
        [{| role := system; content := Some "sys";
            tool_calls := None; tool_call_id := None |};
         {| role := user; content := Some "hi";
            tool_calls := None; tool_call_id := None |}] /\
      anext Demo.create_stream g self_5
      = (StopAsyncIteration, Closed, self_end) /\
      conversation_history self_end =
        [{| role := system; content := Some "sys";
            tool_calls := None; tool_call_id := None |};
         {| role := user; content := Some "hi";
            tool_calls := None; tool_call_id := None |};
         {| role := assistant; content := Some "abcde";
            tool_calls := None; tool_call_id := None |}]).
Proof.
  split.
  - destruct (chat_streaming_commits_when_drained
                Demo.create_stream "hi" None Demo.streaming_session
                Demo.five_fragments (Demo.world [] []) 1)
      as (g & self_1 & Hconsume & Hhistory & Hclose & _).
    + reflexivity.
    + vm_compute. lia.
    + exists g, self_1. auto.
  - destruct (chat_streaming_commits_when_drained
                Demo.create_stream "hi" None Demo.streaming_session
                Demo.five_fragments (Demo.world [] []) 5)
      as (g & self_5 & Hconsume & Hhistory & _ & Hdrained).
    + reflexivity.
    + vm_compute. lia.
    + destruct Hdrained as (self_end & Hstop & Hend).
      * reflexivity.
      * repeat constructor; eexists; reflexivity.
      * exists g, self_5, self_end. auto.
Defined.

(** C9 as stated fails for the turns: the caller assigns to the content
    of the first turn of the returned list, and the session's own history
    shows the new content. *)
Lemma returned_turns_are_shared :
  let self := fst Demo.greeted in
  let h := snd Demo.greeted in
  let r := fst (Store.get_conversation_history self h) in
  let h1 := snd (Store.get_conversation_history self h) in
  Store.read (Store.history_attr self) h = Some [user_turn "hi"] /\
  Store.read (Store.history_attr self)
             (Store.item_mutate r 0 (Store.set_content "x") h1)
  = Some [user_turn "x"] /\
  Store.read (Store.history_attr self)
             (Store.item_mutate r 0 (Store.set_content "x") h1)
  <> Store.read (Store.history_attr self) h.
Proof.
  vm_compute. repeat split. discriminate.
Qed.

Lemma get_conversation_history_copies_the_list_witness :
  let self := fst Demo.greeted in
  let h := snd Demo.greeted in
  let r := fst (Store.get_conversation_history self h) in
  let h1 := snd (Store.get_conversation_history self h) in
  r <> Store.history_attr self /\
  Store.read r h1 = Store.read (Store.history_attr self) h /\
  Store.read (Store.history_attr self) h1
  = Store.read (Store.history_attr self) h /\
  Store.read (Store.history_attr self)
             (Store.list_mutate r (fun _ => []) h1)
  = Store.read (Store.history_attr self) h /\
  Store.lists (Store.list_mutate r (fun _ => []) h1)
    !! Store.history_attr self = Some [1%positive].
Proof.
  apply (get_conversation_history_copies_the_list
           (fst Demo.greeted) (snd Demo.greeted) [1%positive]
           (fun _ => [])).
  vm_compute. reflexivity.
Defined.

Lemma assistant_tool_calls_never_empty_witness :
  history_ok
    (conversation_history
       (snd (demo_chat "again" None 3 Demo.silent_session))) = true.
Proof.
  apply (assistant_tool_calls_never_empty
           Demo.json_loads Demo.create Demo.create_stream Demo.call_tool
           Demo.silent_session).
  reflexivity.
Defined.

End Examples.

(** * Further properties of the loop *)

Section LoopFacts.

Context {World : Type}.
Variable json_loads : string -> result json.
Variable create :
  World -> list Turn -> option (list Tool) ->
  result ChatCompletionMessage * World.
Variable create_stream :
  World -> list Turn -> option (list Tool) ->
  result (list (result Chunk)) * World.
Variable call_tool : World -> string -> call_args -> result string * World.

Implicit Types (self : Integration World) (t : Turn) (e : exn).

Local Abbreviation execute := (_execute_tool_call call_tool).
Local Abbreviation handle := (handle_tool_call json_loads call_tool).
Local Abbreviation loop := (chat_loop json_loads create call_tool).
Local Abbreviation chat' := (chat json_loads create call_tool).
Local Abbreviation request := (request_completion create).
Local Abbreviation anext' := (anext create_stream).
Local Abbreviation consume' := (consume create_stream).

(** ** Only appends *)

Lemma appends_only_refl (P : Turn -> bool) self : appends_only P self self.
Proof. exists []. now rewrite app_nil_r. Qed.

Lemma appends_only_trans (P : Turn -> bool) self1 self2 self3 :
  appends_only P self1 self2 -> appends_only P self2 self3 ->
  appends_only P self1 self3.
Proof.
  intros (a & Ha & Pa & Ta) (b & Hb & Pb & Tb). exists (a ++ b).
  split; [now rewrite Hb, Ha, app_assoc|].
  split; [now rewrite forallb_app, Pa, Pb|congruence].
Qed.

Lemma appends_only_append (P : Turn -> bool) t self :
  P t = true -> appends_only P self (snd (append t self)).
Proof.
  intros Ht. exists [t]. cbn. now rewrite Ht.
Qed.

Lemma appends_only_same (P : Turn -> bool) self self' :
  conversation_history self' = conversation_history self ->
  tools self' = tools self ->
  appends_only P self self'.
Proof. intros Hh Ht. exists []. now rewrite app_nil_r. Qed.

Lemma appends_only_handle (c : ToolCall) self :
  appends_only assistant_or_tool self (snd (handle c self)).
Proof.
  unfold handle_tool_call, bind, eval, try_except.
  destruct (json_loads (fn_arguments c)) as [function_args|e];
    [|apply appends_only_refl].
  destruct (execute_tool_call_returns call_tool (fn_name c) function_args self)
    as (text & self1 & -> & Hh & Ht).
  eapply appends_only_trans; [apply appends_only_same; eassumption|].
  now apply appends_only_append.
Qed.

Lemma appends_only_for_each (calls : list ToolCall) self :
  appends_only assistant_or_tool self (snd (for_each calls handle self)).
Proof.
  revert self. induction calls as [|c calls IH]; intros self.
  - apply appends_only_refl.
  - cbn [for_each]. unfold bind at 1.
    pose proof (appends_only_handle c self) as Hc.
    destruct (handle c self) as [[[]|e] self1]; cbn [snd] in *.
    + exact (appends_only_trans _ _ _ _ Hc (IH self1)).
    + exact Hc.
Qed.

Lemma appends_only_loop (remaining : nat) self :
  appends_only assistant_or_tool self (snd (loop remaining self)).
Proof.
  revert self. induction remaining as [|remaining IH]; intros self.
  - apply appends_only_refl.
  - rewrite chat_loop_step, request_run.
    destruct (create _ _ _) as [[assistant_message|e] w]; cbn [fst snd];
      [|now apply appends_only_same].
    set (self1 := with_env self w).
    assert (H1 : appends_only assistant_or_tool self self1)
      by now apply appends_only_same.
    assert (H2 : appends_only assistant_or_tool self1
                   (snd (append (message_dict assistant_message) self1)))
      by now apply appends_only_append.
    destruct (negb _); cbn [snd].
    { exact (appends_only_trans _ _ _ _ H1 H2). }
    pose proof (appends_only_for_each
                  (calls_of (msg_tool_calls assistant_message))
                  (snd (append (message_dict assistant_message) self1)))
      as H3.
    destruct (for_each _ _ _) as [[[]|e] self3]; cbn [snd] in *.
    + exact (appends_only_trans _ _ _ _ H1
               (appends_only_trans _ _ _ _ H2
                  (appends_only_trans _ _ _ _ H3 (IH self3)))).
    + exact (appends_only_trans _ _ _ _ H1
               (appends_only_trans _ _ _ _ H2 H3)).
Qed.

(** X1.  However [chat] ends (an answer, the budget text, or an exception
    of the model request or of the decoding), it has only appended to the
    history: the turns that were there stay as they were, the opening
    turns of the call follow, and after them come assistant and tool turns
    only.  The tools are not touched. *)
Theorem chat_only_appends (um : string) (sp : option string) (mi : Z) self :
  exists added,
    conversation_history (snd (chat' um sp mi self)) =
      conversation_history self ++
      opening_turns um sp (conversation_history self) ++ added /\
    forallb assistant_or_tool added = true /\
    tools (snd (chat' um sp mi self)) = tools self.
Proof.
  rewrite chat_run, open_turn_eq. cbn [snd].
  destruct (appends_only_loop (Z.to_nat mi)
              {| conversation_history :=
                   conversation_history self ++
                   opening_turns um sp (conversation_history self);
                 tools := tools self; env := env self |})
    as (added & Hh & Hp & Ht).
  exists added. rewrite Hh, Ht. cbn [conversation_history tools].
  now rewrite <- app_assoc.
Qed.

(** ** The ends of the budget and of the model *)

(** X2.  With a budget of zero or less [chat] appends the opening turns,
    does not ask the model, and returns the budget text. *)
Theorem chat_without_budget (um : string) (sp : option string) (mi : Z) self :
  (mi <= 0)%Z ->
  chat' um sp mi self =
  (Returned BUDGET_EXHAUSTED,
   {| conversation_history :=
        conversation_history self ++
        opening_turns um sp (conversation_history self);
      tools := tools self;
      env := env self |}).
Proof.
  intros Hmi. rewrite chat_run, open_turn_eq. cbn [snd].
  now replace (Z.to_nat mi) with 0 by lia.
Qed.

(** X3.  When the first model request of a call fails, [chat] raises that
    exception, and the opening turns stay in the history: a user turn
    without an answer. *)
Theorem chat_keeps_user_turn_when_request_fails
        (um : string) (sp : option string) (mi : Z) self e (w : World) :
  (0 < mi)%Z ->
  create (env self)
         (conversation_history self ++
          opening_turns um sp (conversation_history self))
         (tools_or_none self) = (Raised e, w) ->
  chat' um sp mi self =
  (Raised e,
   {| conversation_history :=
        conversation_history self ++
        opening_turns um sp (conversation_history self);
      tools := tools self;
      env := w |}).
Proof.
  intros Hmi Hcreate. rewrite chat_run, open_turn_eq. cbn [snd].
  destruct (Z.to_nat mi) as [|remaining] eqn:Hn; [lia|].
  rewrite chat_loop_step, request_run.
  unfold tools_or_none in *. cbn [conversation_history tools env].
  now rewrite Hcreate.
Qed.

(** X4.  The system prompt counts only on an empty history and only when
    it is a non-empty text: on a history with turns, [chat] and the
    streaming generator run as if no prompt had been given, and an empty
    prompt is no prompt. *)
Theorem system_prompt_only_opens_a_conversation
        (um : string) (sp : option string) (mi : Z) self :
  conversation_history self <> [] ->
  chat' um sp mi self = chat' um None mi self /\
  anext' (chat_streaming um sp) self = anext' (chat_streaming um None) self /\
  (forall fresh : Integration World,
      chat' um (Some "") mi fresh = chat' um None mi fresh) /\
  (forall fresh : Integration World,
      anext' (chat_streaming um (Some "")) fresh
      = anext' (chat_streaming um None) fresh).
Proof.
  intros Hne.
  assert (Hopen : open_turn um sp self = open_turn um None self).
  { rewrite !open_turn_eq. unfold opening_turns.
    destruct (conversation_history self); [congruence|].
    now rewrite andb_false_r. }
  split; [|split; [|split]].
  - unfold chat, bind. now rewrite Hopen.
  - unfold chat_streaming. cbn [anext]. unfold bind. now rewrite Hopen.
  - intros fresh. unfold chat, bind. now rewrite !open_turn_eq.
  - intros fresh. unfold chat_streaming. cbn [anext]. unfold bind.
    now rewrite !open_turn_eq.
Qed.

(** ** Tool turns answer the assistant turn before them *)

Lemma answers_from_app (history1 history2 : list Turn) :
  forall open_ids,
    answers_from open_ids (history1 ++ history2) =
    match answers_from open_ids history1 with
    | Some open_ids' => answers_from open_ids' history2
    | None => None
    end.
Proof.
  induction history1 as [|t history1 IH]; intros open_ids; [reflexivity|].
  cbn [app answers_from].
  destruct (role t); try apply IH.
  destruct (tool_call_id t) as [call_id|]; [|reflexivity].
  destruct (existsb _ _); [apply IH|reflexivity].
Qed.

Lemma answers_append t self (open_ids : list string) :
  answers_from [] (conversation_history self) = Some open_ids ->
  answers_from [] (conversation_history (snd (append t self))) =
  answers_from open_ids [t].
Proof.
  intros H. cbn [append snd conversation_history].
  now rewrite answers_from_app, H.
Qed.

Lemma ids_of_message_dict (assistant_message : ChatCompletionMessage) :
  truthy_list (msg_tool_calls assistant_message) = true ->
  ids_of (message_dict assistant_message) =
  map tc_id (calls_of (msg_tool_calls assistant_message)).
Proof.
  intros Htruthy. unfold ids_of, message_dict. cbn [tool_calls].
  rewrite Htruthy. cbn [calls_of]. rewrite map_map. reflexivity.
Qed.

Lemma answers_handle (c : ToolCall) self (open_ids : list string) :
  In (tc_id c) open_ids ->
  answers_from [] (conversation_history self) = Some open_ids ->
  answers_from [] (conversation_history (snd (handle c self))) = Some open_ids.
Proof.
  intros Hin Hopen.
  unfold handle_tool_call, bind, eval, try_except.
  destruct (json_loads (fn_arguments c)) as [function_args|e]; [|exact Hopen].
  destruct (execute_tool_call_returns call_tool (fn_name c) function_args self)
    as (text & self1 & -> & Hh & _).
  rewrite <- Hh in Hopen.
  rewrite (answers_append _ _ _ Hopen).
  cbn [answers_from tool_turn role tool_call_id].
  assert (Hex : existsb (String.eqb (tc_id c)) open_ids = true).
  { apply existsb_exists. exists (tc_id c). split; [exact Hin|].
    apply String.eqb_refl. }
  now rewrite Hex.
Qed.

Lemma answers_for_each (calls : list ToolCall) (open_ids : list string) :
  (forall c, In c calls -> In (tc_id c) open_ids) ->
  forall self,
    answers_from [] (conversation_history self) = Some open_ids ->
    answers_from [] (conversation_history (snd (for_each calls handle self)))
    = Some open_ids.
Proof.
  induction calls as [|c calls IH]; intros Hin self Hopen; [exact Hopen|].
  cbn [for_each]. unfold bind at 1.
  pose proof (answers_handle c self open_ids (Hin c (or_introl eq_refl)) Hopen)
    as Hc.
  destruct (handle c self) as [[[]|e] self1]; cbn [snd] in *; [|exact Hc].
  apply IH; [|exact Hc]. intros c' Hc'. apply Hin. now right.
Qed.

Lemma answers_loop (remaining : nat) :
  forall self (open_ids : list string),
    answers_from [] (conversation_history self) = Some open_ids ->
    exists open_ids',
      answers_from [] (conversation_history (snd (loop remaining self)))
      = Some open_ids'.
Proof.
  induction remaining as [|remaining IH]; intros self open_ids Hopen.
  - exists open_ids. exact Hopen.
  - rewrite chat_loop_step, request_run.
    destruct (create _ _ _) as [[assistant_message|e] w]; cbn [fst snd];
      [|exists open_ids; exact Hopen].
    set (self1 := with_env self w).
    assert (H1 : answers_from [] (conversation_history self1) = Some open_ids)
      by exact Hopen.
    pose proof (answers_append (message_dict assistant_message) self1 _ H1)
      as H2.
    cbn [answers_from message_dict role] in H2.
    fold (message_dict assistant_message) in H2.
    destruct (truthy_list (msg_tool_calls assistant_message)) eqn:Htruthy;
      cbn [negb snd].
    + rewrite ids_of_message_dict in H2 by exact Htruthy.
      pose proof (answers_for_each
                    (calls_of (msg_tool_calls assistant_message)) _
                    (fun c Hc => in_map tc_id _ c Hc) _ H2) as H3.
      destruct (for_each _ _ _) as [[[]|e] self3]; cbn [snd] in *.
      * exact (IH self3 _ H3).
      * eexists. exact H3.
    + eexists. exact H2.
Qed.

Lemma answers_resume (stream : list (result Chunk)) :
  forall (collected : list string) self (open_ids : list string),
    answers_from [] (conversation_history self) = Some open_ids ->
    exists open_ids',
      answers_from [] (conversation_history
                         (snd (resume stream collected self)))
      = Some open_ids'.
Proof.
  induction stream as [|[chunk|e] stream IH]; intros collected self open_ids H;
    cbn [resume].
  - cbn [snd]. rewrite (answers_append _ _ _ H). eexists. reflexivity.
  - destruct (truthy_str (delta_content chunk)); [eexists; exact H|].
    exact (IH collected self open_ids H).
  - eexists. exact H.
Qed.

Lemma answers_open_turn um sp self (open_ids : list string) :
  answers_from [] (conversation_history self) = Some open_ids ->
  answers_from [] (conversation_history (snd (open_turn um sp self)))
  = Some [].
Proof.
  intros H. rewrite open_turn_eq. cbn [snd conversation_history].
  rewrite answers_from_app, H. unfold opening_turns.
  now destruct (truthy_str sp && _).
Qed.

Lemma tool_turns_answer_some (history : list Turn) :
  tool_turns_answer history = true <->
  exists open_ids, answers_from [] history = Some open_ids.
Proof.
  unfold tool_turns_answer. destruct (answers_from [] history).
  - split; eauto.
  - split; [discriminate|]. now intros [? ?].
Qed.

(** X5.  Every operation keeps this invariant of the history: a tool turn
    carries the id of a request of the latest assistant turn before it, with
    no system or user turn in between.  [chat] keeps it however it ends, and
    so do the steps of a streaming generator and [reset_conversation]. *)
Theorem tool_turns_answer_preserved self :
  tool_turns_answer (conversation_history self) = true ->
  (forall um sp mi,
      tool_turns_answer
        (conversation_history (snd (chat' um sp mi self))) = true) /\
  (forall g : Generator,
      tool_turns_answer
        (conversation_history (snd (anext' g self))) = true) /\
  tool_turns_answer (conversation_history (reset_conversation self)) = true.
Proof.
  intros Hok. apply tool_turns_answer_some in Hok as [open_ids Hopen].
  split; [|split].
  - intros um sp mi. apply tool_turns_answer_some. rewrite chat_run.
    exact (answers_loop _ _ _ (answers_open_turn um sp self _ Hopen)).
  - intros g. apply tool_turns_answer_some.
    destruct g as [um sp|stream collected|]; cbn [anext].
    + unfold bind. pose proof (answers_open_turn um sp self _ Hopen) as H0.
      rewrite open_turn_eq in *. cbn [snd] in H0. unfold request_stream.
      destruct (create_stream _ _ _) as [[stream|e] w].
      * exact (answers_resume stream [] (with_env _ w) _ H0).
      * eexists. exact H0.
    + exact (answers_resume stream collected self _ Hopen).
    + eexists. exact Hopen.
  - reflexivity.
Qed.

(** ** A round that breaks off *)

Lemma for_each_app {A : Type} (xs ys : list A)
      (body : A -> M (World := World) unit) self :
  for_each (xs ++ ys) body self =
  match for_each xs body self with
  | (Returned _, self') => for_each ys body self'
  | (Raised e, self') => (Raised e, self')
  end.
Proof.
  revert self. induction xs as [|x xs IH]; intros self; [reflexivity|].
  cbn [app for_each]. unfold bind.
  destruct (body x self) as [[[]|e] self1]; [apply IH|reflexivity].
Qed.

(** What [_execute_tool_call] asks of the provider. *)
Lemma execute_tool_call_outcome (name : string) (arguments : json) self :
  exists text self',
    execute name arguments self = (Returned text, self') /\
    conversation_history self' = conversation_history self /\
    tools self' = tools self /\
    provider_outcome call_tool name arguments (env self) text (env self').
Proof.
  unfold _execute_tool_call, provider_call, try_except, bind, eval, ret,
    provider_outcome, is_TypeError.
  destruct (call_tool (env self) name (ArgumentsParam arguments))
    as [[text|e] w]; [eexists _, _; cbn; eauto|].
  destruct (exn_cls e).
  - destruct arguments as [| | | | |items|members]; cbn [unpack_kwargs];
      try (eexists _, _; cbn; repeat split; eexists; reflexivity).
    cbn [with_env env].
    destruct (call_tool w name (Keywords members)) as [[text|e2] w2];
      eexists _, _; cbn; eauto.
  - eexists _, _; cbn; eauto.
  - eexists _, _; cbn; eauto.
Qed.

Lemma for_each_handle_carried (calls : list ToolCall) :
  Forall (decodable json_loads) calls ->
  forall self,
  exists results self',
    for_each calls handle self = (Returned tt, self') /\
    length results = length calls /\
    carried_out json_loads call_tool calls (env self) results (env self') /\
    conversation_history self' =
      conversation_history self ++
      zip_with (fun tool_call tool_result =>
                  {| role := tool;
                     content := Some tool_result;
                     tool_calls := None;
                     tool_call_id := Some (tc_id tool_call) |})
               calls results /\
    tools self' = tools self.
Proof.
  induction 1 as [|c calls [function_args Hc] _ IH]; intros self.
  - exists [], self. cbn. rewrite app_nil_r. auto.
  - destruct (execute_tool_call_outcome (fn_name c) function_args self)
      as (text & self1 & Hrun & Hh & Ht & Hout).
    set (self1' := snd (append (tool_turn (tc_id c) text) self1)).
    destruct (IH self1') as (results & self2 & Hrun2 & Hlen & Hcar & Hh2 & Ht2).
    assert (Hhandle : handle c self = (Returned tt, self1')).
    { unfold handle_tool_call, bind, eval, try_except.
      now rewrite Hc, Hrun. }
    exists (text :: results), self2.
    cbn [for_each]. unfold bind at 1. rewrite Hhandle, Hrun2.
    split; [reflexivity|]. split; [cbn; now rewrite Hlen|].
    split; [|split].
    + cbn [carried_out]. exists function_args, (env self1).
      split; [exact Hc|]. split; [exact Hout|exact Hcar].
    + rewrite Hh2. subst self1'. cbn [append snd conversation_history].
      rewrite Hh, <- app_assoc. reflexivity.
    + rewrite Ht2. subst self1'. cbn. exact Ht.
Qed.

(** X6.  When a request of an assistant turn has arguments that do not
    decode, the requests before it have been carried out: the provider was
    asked for each of them in order, the world is the one that the last of
    them left, and their tool turns are in the history with their results.
    The request itself and those after it reach no provider and get no tool
    turn, and [chat] ends with the exception of [json.loads]. *)
Theorem chat_breaks_off_at_undecodable_call
        (remaining : nat) self (assistant_message : ChatCompletionMessage)
        (w : World) (done : list ToolCall) (bad : ToolCall)
        (skipped : list ToolCall) e :
  create (env self) (conversation_history self) (tools_or_none self)
    = (Returned assistant_message, w) ->
  msg_tool_calls assistant_message = Some (done ++ bad :: skipped) ->
  Forall (decodable json_loads) done ->
  json_loads (fn_arguments bad) = Raised e ->
  exists (results : list string) self',
    loop (S remaining) self = (Raised e, self') /\
    length results = length done /\
    carried_out json_loads call_tool done w results (env self') /\
    conversation_history self' =
      conversation_history self ++
      {| role := assistant;
         content := msg_content assistant_message;
         tool_calls := Some (done ++ bad :: skipped);
         tool_call_id := None |}
        :: zip_with (fun tool_call tool_result =>
                       {| role := tool;
                          content := Some tool_result;
                          tool_calls := None;
                          tool_call_id := Some (tc_id tool_call) |})
                    done results /\
    tools self' = tools self.
Proof.
  intros Hcreate Hcalls Hdone Hbad.
  rewrite chat_loop_step, request_run, Hcreate. cbn [fst snd].
  rewrite append_run, Hcalls. cbn [snd calls_of].
  assert (Htruthy : truthy_list (Some (done ++ bad :: skipped)) = true)
    by now destruct done.
  rewrite Htruthy. cbn [negb].
  set (self2 := {| conversation_history := _ |}).
  rewrite for_each_app.
  destruct (for_each_handle_carried _ Hdone self2)
    as (results & self3 & -> & Hlen & Hcarried & Hh & Ht).
  cbn [for_each]. unfold bind at 1.
  rewrite (handle_tool_call_undecodable json_loads call_tool bad e _ Hbad).
  exists results, self3. split; [reflexivity|]. split; [exact Hlen|].
  split; [exact Hcarried|]. split; [|exact Ht].
  rewrite Hh. subst self2. cbn [conversation_history].
  rewrite <- app_assoc, message_dict_fields, Hcalls. cbn [calls_of app].
  now destruct done.
Qed.

(** ** The budget bounds every run *)

Lemma handle_adds_no_assistant (c : ToolCall) self :
  exists added,
    conversation_history (snd (handle c self)) =
      conversation_history self ++ added /\
    filter is_assistant added = [].
Proof.
  unfold handle_tool_call, bind, eval, try_except.
  destruct (json_loads (fn_arguments c)) as [function_args|e].
  - destruct (execute_tool_call_returns call_tool (fn_name c) function_args
                                        self)
      as (text & self1 & -> & Hh & _).
    eexists [_]. cbn [snd append conversation_history]. rewrite Hh.
    split; reflexivity.
  - exists []. cbn [snd]. now rewrite app_nil_r.
Qed.

Lemma for_each_adds_no_assistant (calls : list ToolCall) self :
  exists added,
    conversation_history (snd (for_each calls handle self)) =
      conversation_history self ++ added /\
    filter is_assistant added = [].
Proof.
  revert self. induction calls as [|c calls IH]; intros self.
  - exists []. cbn. now rewrite app_nil_r.
  - cbn [for_each]. unfold bind at 1.
    destruct (handle_adds_no_assistant c self) as (a & Ha & Hfa).
    destruct (handle c self) as [[[]|e] self1]; cbn [snd] in *.
    + destruct (IH self1) as (b & Hb & Hfb). exists (a ++ b).
      rewrite Hb, Ha, <- app_assoc, filter_app, Hfa, Hfb. auto.
    + exists a. auto.
Qed.

Lemma loop_adds_bounded_assistants (remaining : nat) self :
  exists added,
    conversation_history (snd (loop remaining self)) =
      conversation_history self ++ added /\
    length (filter is_assistant added) <= remaining.
Proof.
  revert self. induction remaining as [|remaining IH]; intros self.
  - exists []. cbn. rewrite app_nil_r. auto.
  - rewrite chat_loop_step, request_run.
    destruct (create _ _ _) as [[assistant_message|e] w]; cbn [fst snd].
    2:{ exists []. cbn. rewrite app_nil_r. split; [reflexivity|lia]. }
    rewrite append_run. cbn [snd].
    set (self2 := {| conversation_history := _ |}).
    destruct (negb _); cbn [snd].
    { exists [message_dict assistant_message]. split; [reflexivity|].
      rewrite filter_cons_True by (cbn; auto). cbn. lia. }
    destruct (for_each_adds_no_assistant
                (calls_of (msg_tool_calls assistant_message)) self2)
      as (a & Ha & Hfa).
    destruct (for_each _ _ _) as [[[]|e] self3]; cbn [snd] in *.
    + destruct (IH self3) as (b & Hb & Hfb).
      exists (message_dict assistant_message :: a ++ b). split.
      * rewrite Hb, Ha. subst self2. cbn [conversation_history].
        now rewrite <- !app_assoc.
      * rewrite filter_cons_True by (cbn; auto).
        rewrite filter_app, Hfa. cbn [app length]. lia.
    + exists (message_dict assistant_message :: a). split.
      * rewrite Ha. subst self2. cbn [conversation_history].
        now rewrite <- app_assoc.
      * rewrite filter_cons_True by (cbn; auto). rewrite Hfa. cbn. lia.
Qed.

(** X7.  The budget holds against every model and every tool: whatever
    they answer and however the call ends, [chat] appends at most
    [max(0, max_iterations)] assistant turns, one per model request that
    was answered. *)
Theorem chat_respects_budget (um : string) (sp : option string) (mi : Z) self :
  exists added,
    conversation_history (snd (chat' um sp mi self)) =
      conversation_history self ++
      opening_turns um sp (conversation_history self) ++ added /\
    (Z.of_nat (length (filter is_assistant added)) <= Z.max 0 mi)%Z.
Proof.
  rewrite chat_run, open_turn_eq. cbn [snd].
  destruct (loop_adds_bounded_assistants (Z.to_nat mi)
              {| conversation_history :=
                   conversation_history self ++
                   opening_turns um sp (conversation_history self);
                 tools := tools self; env := env self |})
    as (added & Hh & Hn).
  exists added. rewrite Hh. cbn [conversation_history].
  split; [now rewrite <- app_assoc|lia].
Qed.

(** ** A stream that fails *)

Lemma resume_fails (pre : list (result Chunk)) e (post : list (result Chunk)) :
  forall (collected : list string) self,
    Forall delivered pre ->
    fragments_of pre = [] ->
    resume (pre ++ Raised e :: post) collected self = (Failed e, Closed, self).
Proof.
  induction pre as [|[chunk|e'] pre IH]; intros collected self Hd Hf;
    cbn [app resume fragments_of] in *.
  - reflexivity.
  - destruct (truthy_str (delta_content chunk)); [discriminate|].
    apply IH; [now inversion Hd|assumption].
  - inversion Hd as [|? ? [chunk Hc] _]. discriminate.
Qed.

Lemma resume_yields_before (pre tail : list (result Chunk)) :
  forall (collected : list string) self (f : string) (fs : list string),
    fragments_of pre = f :: fs ->
    Forall delivered pre ->
    exists pre',
      resume (pre ++ tail) collected self =
        (Yielded f, Suspended (pre' ++ tail) (collected ++ [f]), self) /\
      fragments_of pre' = fs /\
      Forall delivered pre'.
Proof.
  induction pre as [|[chunk|e] pre IH]; intros collected self f fs Hf Hd;
    cbn [app fragments_of resume] in *; try discriminate.
  inversion Hd as [|? ? _ Hd']; subst.
  destruct (truthy_str (delta_content chunk)).
  - injection Hf as <- <-. exists pre. auto.
  - exact (IH collected self f fs Hf Hd').
Qed.

Lemma consume_before (fs : list string) :
  forall (pre tail : list (result Chunk)) (collected : list string) self,
    fragments_of pre = fs ->
    Forall delivered pre ->
    exists pre',
      consume' (length fs) (Suspended (pre ++ tail) collected) self =
        (fs, Suspended (pre' ++ tail) (collected ++ fs), self) /\
      fragments_of pre' = [] /\
      Forall delivered pre'.
Proof.
  induction fs as [|f fs IH]; intros pre tail collected self Hf Hd.
  - exists pre. cbn. rewrite app_nil_r. auto.
  - destruct (resume_yields_before pre tail collected self f fs Hf Hd)
      as (pre1 & Hr & Hf1 & Hd1).
    destruct (IH pre1 tail (collected ++ [f]) self Hf1 Hd1)
      as (pre2 & Hc & Hf2 & Hd2).
    exists pre2. cbn [length consume anext]. rewrite Hr, Hc.
    rewrite <- app_assoc. auto.
Qed.

(** X8.  When the stream breaks after some chunks, the caller has received
    the fragments of the chunks before the break, the step that meets the
    break fails with the stream's exception and closes the generator, and
    the history holds the opening turns only: what was streamed is not
    recorded. *)
Theorem chat_streaming_drops_a_broken_stream
        (um : string) (sp : option string) self
        (pre post : list (result Chunk)) e (w : World) :
  let opened := conversation_history self ++
                opening_turns um sp (conversation_history self) in
  create_stream (env self) opened (tools_or_none self)
    = (Returned (pre ++ Raised e :: post), w) ->
  Forall delivered pre ->
  exists (g : Generator) self_n self_end,
    consume' (length (fragments_of pre)) (chat_streaming um sp) self
      = (fragments_of pre, g, self_n) /\
    anext' g self_n = (Failed e, Closed, self_end) /\
    conversation_history self_end = opened /\
    anext' Closed self_end = (StopAsyncIteration, Closed, self_end).
Proof.
  intros opened Hs Hd. unfold chat_streaming.
  set (self0 := {| conversation_history := opened;
                   tools := tools self; env := w |}).
  destruct (fragments_of pre) as [|f fs] eqn:Hf.
  - exists (Created um sp), self, self0. split; [reflexivity|].
    rewrite (anext_created create_stream _ _ _ _ _ Hs).
    fold opened. fold self0.
    rewrite (resume_fails pre e post [] self0 Hd Hf). auto.
  - destruct (resume_yields_before pre (Raised e :: post) [] self0 f fs Hf Hd)
      as (pre1 & Hr & Hf1 & Hd1).
    destruct (consume_before fs pre1 (Raised e :: post) [f] self0 Hf1 Hd1)
      as (pre2 & Hc & Hf2 & Hd2).
    exists (Suspended (pre2 ++ Raised e :: post) ([f] ++ fs)), self0, self0.
    cbn [length consume]. rewrite (anext_created create_stream _ _ _ _ _ Hs).
    fold opened. fold self0. rewrite Hr. cbn [app] in *. rewrite Hc.
    split; [reflexivity|]. cbn [anext].
    rewrite (resume_fails pre2 e post _ self0 Hd2 Hf2). auto.
Qed.

End LoopFacts.

(** * The registry, the query client and the copies of the history *)

Section RegistryFacts.

Context {World : Type}.
Variable list_tools : World -> result (list McpTool) * World.

Lemma fold_left_append_map {A B : Type} (f : A -> B) (xs : list A) :
  forall acc : list B,
    fold_left (fun ys x => ys ++ [f x]) xs acc = acc ++ map f xs.
Proof.
  induction xs as [|x xs IH]; intros acc; cbn [fold_left map].
  - now rewrite app_nil_r.
  - now rewrite IH, <- app_assoc.
Qed.

(** X9.  [_load_tools] asks the provider first.  When the listing comes,
    the tools of the object are replaced, not extended: one function tool
    per listed tool, in the provider's order, under the listed name (the
    empty name when the tool has none), whatever was registered before.
    When the listing fails, the exception leaves [_load_tools] and the
    tools registered before are still there. *)
Theorem load_tools_replaces_or_keeps (self : Registry) :
  match list_tools (provider self) with
  | (Returned listed, w) =>
      exists self',
        _load_tools list_tools self = (Returned tt, self') /\
        provider self' = w /\
        registered self' =
          map (fun tool => openai_tool (tool_info tool)) listed /\
        length (registered self') = length listed /\
        map ft_name (registered self') =
          map (fun tool => match mcp_name tool with
                           | Has name => name
                           | Missing => ""
                           end) listed /\
        Forall (fun tool => ft_type tool = "function") (registered self')
  | (Raised e, w) =>
      _load_tools list_tools self =
      (Raised e, {| registered := registered self; provider := w |})
  end.
Proof.
  unfold _load_tools, list_available_tools.
  destruct (list_tools (provider self)) as [[listed|e] w]; [|reflexivity].
  eexists. split; [reflexivity|]. cbn [provider registered].
  rewrite fold_left_append_map. cbn [app]. rewrite map_map.
  split; [reflexivity|]. split; [reflexivity|].
  split; [now rewrite length_map|].
  split; [now rewrite map_map|].
  clear. induction listed as [|tool listed IH]; cbn [map]; constructor;
    [reflexivity|exact IH].
Qed.

(** X10.  The keywords that [execute_query] sends: always [query]; each
    optional argument exactly when it was given, with its value; nothing
    else; every key once. *)
Theorem execute_query_sends_what_was_given (a : QueryArguments) :
  let kwargs := execute_query_kwargs a in
  NoDup (map fst kwargs) /\
  kwarg "query" kwargs = Some (JStr (qa_query a)) /\
  kwarg "params" kwargs = option_map JArr (qa_params a) /\
  kwarg "host" kwargs = option_map JStr (qa_host a) /\
  kwarg "port" kwargs = option_map JInt (qa_port a) /\
  kwarg "database" kwargs = option_map JStr (qa_database a) /\
  kwarg "user" kwargs = option_map JStr (qa_user a) /\
  kwarg "password" kwargs = option_map JStr (qa_password a) /\
  (forall key,
      In key (map fst kwargs) ->
      In key ["query"; "params"; "host"; "port"; "database"; "user";
              "password"]).
Proof.
  destruct a as [query params host port database user password].
  unfold execute_query_kwargs.
  cbn [qa_query qa_params qa_host qa_port qa_database qa_user qa_password].
  destruct params, host, port, database, user, password;
    cbn [keyword app map fst kwarg option_map String.eqb Ascii.eqb Bool.eqb];
    (split; [apply (bool_decide_unpack _); vm_compute; reflexivity|]);
    repeat (split; [reflexivity|]);
    intros key Hin; cbn [In] in *; tauto.
Qed.

End RegistryFacts.

Section SnapshotFacts.

Implicit Types (self : Store.Object) (h : Store.Heap) (t : Turn).

Lemma read_other_list self t h (r : Store.loc) :
  r <> Store.history_attr self ->
  forall ts,
    Store.read r h = Some ts ->
    Store.read r (Store.append_turn self t h) = Some ts.
Proof.
  intros Hr ts. unfold Store.read, Store.append_turn, Store.new_dict,
    Store.list_mutate. cbn [Store.lists Store.dicts].
  rewrite lookup_alter_ne by congruence.
  destruct (Store.lists h !! r) as [items|]; [|discriminate].
  intros Hts. apply mapM_Some. apply mapM_Some in Hts.
  eapply Forall2_impl; [exact Hts|]. intros d t' Hd.
  rewrite lookup_insert_ne; [exact Hd|].
  intros <-. apply (is_fresh (dom (Store.dicts h))).
  apply elem_of_dom. eauto.
Qed.

(** X11.  The list that [get_conversation_history] handed out is a
    snapshot of the sequence: when the session goes on and appends a turn,
    or is reset, the list still reads as the turns of the moment it was
    taken, while the session's own history has moved on. *)
Theorem history_copy_is_a_snapshot self h (ts : list Turn) t :
  Store.read (Store.history_attr self) h = Some ts ->
  let r := fst (Store.get_conversation_history self h) in
  let h1 := snd (Store.get_conversation_history self h) in
  Store.read r (Store.append_turn self t h1) = Some ts /\
  Store.read (Store.history_attr self) (Store.append_turn self t h1)
  = Some (ts ++ [t]) /\
  Store.read r (snd (Store.reset_conversation self h1)) = Some ts /\
  Store.read (Store.history_attr (fst (Store.reset_conversation self h1)))
             (snd (Store.reset_conversation self h1)) = Some [].
Proof.
  intros Hread r h1.
  assert (Hl : exists items,
             Store.lists h !! Store.history_attr self = Some items).
  { unfold Store.read in Hread.
    destruct (Store.lists h !! Store.history_attr self); [eauto|discriminate]. }
  destruct Hl as [items Hl].
  assert (Hr : r <> Store.history_attr self).
  { apply new_list_fresh. rewrite Hl. eauto. }
  assert (Hcopy : Store.read r h1 = Some ts).
  { subst r h1. unfold Store.get_conversation_history.
    rewrite read_new_list. unfold Store.list_items. rewrite Hl. cbn [default].
    unfold Store.read in Hread. now rewrite Hl in Hread. }
  assert (Hown : Store.read (Store.history_attr self) h1 = Some ts).
  { subst h1. unfold Store.read, Store.get_conversation_history,
      Store.new_list in *. cbn [snd Store.lists Store.dicts]. fold r.
    now rewrite lookup_insert_ne. }
  split; [now apply read_other_list|].
  split; [now apply append_turn_read|].
  split.
  - unfold Store.reset_conversation, Store.new_list, Store.read in *.
    cbn [snd Store.lists Store.dicts].
    rewrite lookup_insert_ne; [exact Hcopy|].
    intros Heq. apply (is_fresh (dom (Store.lists h1))). rewrite Heq.
    apply elem_of_dom.
    destruct (Store.lists h1 !! r); [eauto|discriminate].
  - unfold Store.reset_conversation, Store.new_list, Store.read.
    cbn [fst snd Store.lists Store.dicts Store.history_attr].
    now rewrite lookup_insert_eq.
Qed.

End SnapshotFacts.

(** * The session table *)

Section TableFacts.

Implicit Types (table : Table) (entry : Entry).

Lemma session_get_update (k k' : string) (f : Entry -> Entry) table :
  session_get k (session_update k' f table) =
  if String.eqb k' k then option_map f (session_get k table)
  else session_get k table.
Proof.
  induction table as [|[k0 entry] table IH]; cbn [session_update session_get].
  - now destruct (String.eqb k' k).
  - destruct (String.eqb k0 k) eqn:E0.
    + apply String.eqb_eq in E0 as ->.
      destruct (String.eqb k k') eqn:E1.
      * apply String.eqb_eq in E1 as ->. now rewrite String.eqb_refl.
      * rewrite String.eqb_sym, E1. reflexivity.
    + exact IH.
Qed.

Lemma session_get_del (k k' : string) table :
  session_get k (session_del k' table) =
  if String.eqb k' k then None else session_get k table.
Proof.
  induction table as [|[k0 entry] table IH]; cbn [session_del session_get].
  - now destruct (String.eqb k' k).
  - destruct (String.eqb k0 k') eqn:E1.
    + apply String.eqb_eq in E1 as ->. rewrite IH.
      now destruct (String.eqb k' k).
    + cbn [session_get]. rewrite IH.
      destruct (String.eqb k0 k) eqn:E0; [|reflexivity].
      apply String.eqb_eq in E0 as ->.
      now rewrite String.eqb_sym, E1.
Qed.

Lemma session_get_app (k k' : string) entry table :
  session_get k (table ++ [(k', entry)]) =
  match session_get k table with
  | Some found => Some found
  | None => if String.eqb k' k then Some entry else None
  end.
Proof.
  induction table as [|[k0 e0] table IH]; cbn [app session_get].
  - reflexivity.
  - now destruct (String.eqb k0 k).
Qed.

Lemma session_get_none (k : string) table :
  session_get k table = None -> ~ In k (map fst table).
Proof.
  induction table as [|[k0 e0] table IH]; cbn [session_get map fst In].
  - tauto.
  - destruct (String.eqb k0 k) eqn:E; [discriminate|].
    apply String.eqb_neq in E. intros H [H1|H1]; [congruence|].
    now apply IH.
Qed.

Lemma session_get_in (k : string) entry table :
  session_get k table = Some entry -> In (k, entry) table.
Proof.
  induction table as [|[k0 e0] table IH]; cbn [session_get In];
    [discriminate|].
  destruct (String.eqb k0 k) eqn:E.
  - apply String.eqb_eq in E as ->. intros [= ->]. now left.
  - intros H. right. now apply IH.
Qed.

Lemma session_update_keys (k : string) (f : Entry -> Entry) table :
  map fst (session_update k f table) = map fst table.
Proof.
  induction table as [|[k0 e0] table IH]; cbn [session_update map fst];
    [reflexivity|]. now rewrite IH.
Qed.

Lemma session_del_keys (k k' : string) table :
  In k (map fst (session_del k' table)) ->
  In k (map fst table) /\ k <> k'.
Proof.
  induction table as [|[k0 e0] table IH]; cbn [session_del map fst In];
    [tauto|].
  destruct (String.eqb k0 k') eqn:E.
  - intros H. destruct (IH H). auto.
  - apply String.eqb_neq in E. cbn [map fst In].
    intros [<-|H]; [auto|]. destruct (IH H). auto.
Qed.

Lemma in_session_get (k : string) entry table :
  NoDup (map fst table) -> In (k, entry) table ->
  session_get k table = Some entry.
Proof.
  induction table as [|[k0 e0] table IH]; cbn [map fst In session_get];
    [tauto|].
  intros Hnd Hin. apply NoDup_cons in Hnd as [Hk0 Hnd].
  destruct Hin as [[= -> ->]|Hin]; [now rewrite String.eqb_refl|].
  destruct (String.eqb k0 k) eqn:E; [|now apply IH].
  apply String.eqb_eq in E as ->. exfalso. apply Hk0.
  apply list_elem_of_In. apply in_map_iff. now exists (k, entry).
Qed.

Lemma in_session_update (k : string) (f : Entry -> Entry) table
      (kv : string * Entry) :
  In kv (session_update k f table) ->
  exists entry,
    In (fst kv, entry) table /\
    snd kv = if String.eqb (fst kv) k then f entry else entry.
Proof.
  induction table as [|[k0 e0] table IH]; cbn [session_update In]; [tauto|].
  intros [<-|Hin].
  - exists e0. cbn [fst snd]. auto.
  - destruct (IH Hin) as (entry & Hentry & Hsnd). exists entry. auto.
Qed.

Lemma table_ok_update (k : string) (f : Entry -> Entry) table :
  table_ok table ->
  (forall entry, session_get k table = Some entry ->
                 entry_ok entry = true -> entry_ok (f entry) = true) ->
  table_ok (session_update k f table).
Proof.
  intros [Hnd Hall] Hf. split; [now rewrite session_update_keys|].
  apply List.Forall_forall. intros kv Hin.
  destruct (in_session_update _ _ _ _ Hin) as (entry & Hentry & ->).
  pose proof (proj1 (List.Forall_forall _ _) Hall _ Hentry) as Hok.
  cbn [snd] in Hok.
  destruct (String.eqb (fst kv) k) eqn:E; [|exact Hok].
  apply String.eqb_eq in E. subst k.
  exact (Hf entry (in_session_get _ _ _ Hnd Hentry) Hok).
Qed.

Lemma table_ok_del (k : string) table :
  table_ok table -> table_ok (session_del k table).
Proof.
  intros [Hnd Hall]. split.
  - clear Hall. induction table as [|[k0 e0] table IH];
      cbn [session_del map fst] in *; [constructor|].
    apply NoDup_cons in Hnd as [Hk0 Hnd].
    destruct (String.eqb k0 k); [now apply IH|].
    cbn [map fst]. apply NoDup_cons. split; [|now apply IH].
    intros Hin. apply Hk0. apply list_elem_of_In.
    apply list_elem_of_In in Hin.
    now destruct (session_del_keys _ _ _ Hin).
  - clear Hnd. induction Hall as [|[k0 e0] table H0 Hall IH];
      cbn [session_del]; [constructor|].
    destruct (String.eqb k0 k); [exact IH|]. now constructor.
Qed.

Lemma table_ok_new (k : string) entry table :
  table_ok table ->
  session_get k table = None ->
  entry_ok entry = true ->
  table_ok (table ++ [(k, entry)]).
Proof.
  intros [Hnd Hall] Hnone Hok. split.
  - rewrite map_app. cbn [map fst]. apply NoDup_app. split; [exact Hnd|].
    split; [|apply NoDup_singleton].
    intros x Hx Hk. apply list_elem_of_In in Hx.
    apply list_elem_of_singleton in Hk. subst x.
    exact (session_get_none _ _ Hnone Hx).
  - apply Forall_app. split; [exact Hall|]. now constructor.
Qed.

End TableFacts.

(** * The endpoints *)

Section ApiFacts.

Context {World : Type}.
Variable json_loads : string -> result json.
Variable create :
  World -> list Turn -> option (list Tool) ->
  result ChatCompletionMessage * World.
Variable call_tool : World -> string -> call_args -> result string * World.
Variable str_lower : string -> string.
Variable http_exception_str : Z -> string -> string.
Variable getenv : World -> string -> option string.
Variable uuid4 : World -> string * World.
Variable now : World -> string * World.
Variable start_integration :
  World -> string -> string -> result (list Tool) * World.
Variable stop_integration : World -> Entry -> result unit * World.
Variable default_system_prompt : string.

Implicit Types (sv : Api.Server (World := World)) (entry : Entry).

Local Abbreviation chat' := (chat json_loads create call_tool).
Local Abbreviation get_or_create :=
  (Api.get_or_create_session getenv uuid4 now start_integration
                             default_system_prompt).
Local Abbreviation api_chat :=
  (Api.chat json_loads create call_tool str_lower http_exception_str getenv
            uuid4 now start_integration default_system_prompt).
Local Abbreviation api_create :=
  (Api.create_session getenv uuid4 now start_integration
                      default_system_prompt).
Local Abbreviation api_delete := (Api.delete_session stop_integration).
Local Abbreviation api_reset :=
  (Api.reset_session (World := World) default_system_prompt).

Lemma entry_ok_iff entry :
  entry_ok entry = true <->
  (exists t rest, entry_history entry = t :: rest /\ role t = system) /\
  (0 <= message_count entry)%Z /\
  (message_count entry <= Z.of_nat (user_turns (entry_history entry)))%Z /\
  history_ok (entry_history entry) = true /\
  tool_turns_answer (entry_history entry) = true.
Proof.
  unfold entry_ok. rewrite !andb_true_iff, !Z.leb_le.
  split.
  - intros ((((H1 & H2) & H3) & H4) & H5). repeat split; try assumption.
    destruct (entry_history entry) as [|t rest]; [discriminate|].
    exists t, rest. split; [reflexivity|]. now destruct (role t).
  - intros ((t & rest & Hh & Hr) & H2 & H3 & H4 & H5).
    repeat split; try assumption. now rewrite Hh, Hr.
Qed.

Lemma no_user_among_assistant_or_tool (added : list Turn) :
  forallb assistant_or_tool added = true ->
  List.filter is_user added = [].
Proof.
  induction added as [|t added IH]; cbn [forallb List.filter];
    [reflexivity|].
  intros H. apply andb_prop in H as [Ht H].
  unfold assistant_or_tool in Ht. unfold is_user.
  destruct (role t); try discriminate; exact (IH H).
Qed.

(** What a [chat] call of the endpoint makes of a stored session. *)
Lemma chat_on_entry entry (w : World) (message : string) (count : Z) :
  entry_ok entry = true ->
  (0 <= count <= message_count entry + 1)%Z ->
  entry_ok
    (Api.stored (snd (chat' message None 10 (Api.integration_of entry w)))
                count entry) = true.
Proof.
  intros Hok Hcount. apply entry_ok_iff in Hok
    as ((t & rest & Hh & Hr) & H0 & Hu & Hhist & Hans).
  set (self := Api.integration_of entry w).
  assert (Hshape : exists added,
             conversation_history (snd (chat' message None 10 self)) =
               entry_history entry ++ user_turn message :: added /\
             forallb assistant_or_tool added = true).
  { rewrite chat_run, open_turn_eq. cbn [snd].
    destruct (appends_only_loop json_loads create call_tool (Z.to_nat 10)
                {| conversation_history :=
                     conversation_history self ++
                     opening_turns message None (conversation_history self);
                   tools := tools self; env := env self |})
      as (added & Ha & Hp & _).
    exists added. rewrite Ha. cbn [conversation_history].
    subst self. cbn [Api.integration_of conversation_history].
    unfold opening_turns. cbn [truthy_str andb app].
    now rewrite <- app_assoc. }
  destruct Hshape as (added & Hshape & Hadded).
  apply entry_ok_iff. cbn [Api.stored entry_history message_count].
  split; [|split; [|split; [|split]]].
  - rewrite Hshape, Hh. cbn [app]. eauto.
  - lia.
  - rewrite Hshape. unfold user_turns in *.
    rewrite List.filter_app, length_app.
    cbn [List.filter is_user user_turn role].
    rewrite (no_user_among_assistant_or_tool _ Hadded). cbn [length]. lia.
  - exact (grows_ok_invariant self _
             (grows_ok_chat json_loads create call_tool message None 10 self)
             Hhist).
  - apply tool_turns_answer_some in Hans as [open_ids Hopen].
    apply tool_turns_answer_some. rewrite chat_run.
    exact (answers_loop json_loads create call_tool _ _ _
             (answers_open_turn message None self _ Hopen)).
Qed.

Lemma new_entry_ok (prompt : string) (loaded : list Tool) (timestamp : string) :
  entry_ok {| entry_history := [system_turn prompt];
              entry_tools := loaded;
              created_at := timestamp;
              message_count := 0 |} = true.
Proof. reflexivity. Qed.

(** What [get_or_create_session] does to the table. *)
Lemma get_or_create_run (session_id system_prompt : option string) sv :
  table_ok (Api.sessions sv) ->
  table_ok (Api.sessions (snd (get_or_create session_id system_prompt sv))) /\
  (forall k entry,
      session_get k (Api.sessions sv) = Some entry ->
      session_get k (Api.sessions
                       (snd (get_or_create session_id system_prompt sv)))
      = Some entry) /\
  match fst (get_or_create session_id system_prompt sv) with
  | Ok (id, entry) =>
      session_get id (Api.sessions
                        (snd (get_or_create session_id system_prompt sv)))
      = Some entry /\
      (truthy_str session_id = true -> id = or_empty session_id) /\
      (forall k, k <> id ->
         session_get k (Api.sessions
                          (snd (get_or_create session_id system_prompt sv)))
         = session_get k (Api.sessions sv)) /\
      match session_get id (Api.sessions sv) with
      | Some found => entry = found
      | None =>
          message_count entry = 0%Z /\
          exists prompt, entry_history entry = [system_turn prompt]
      end
  | _ =>
      Api.sessions (snd (get_or_create session_id system_prompt sv))
      = Api.sessions sv
  end.
Proof.
  intros Hok. unfold Api.get_or_create_session.
  set (picked := if truthy_str session_id then _ else _).
  assert (Hpick : truthy_str session_id = true ->
                  fst picked = or_empty session_id).
  { intros H. subst picked. now rewrite H. }
  destruct picked as [id w]. cbn [fst] in Hpick.
  destruct (session_get id (Api.sessions sv)) as [found|] eqn:Hget.
  { cbn [fst snd Api.sessions]. rewrite Hget.
    repeat split; auto; apply Hok. }
  unfold Api.get_openai_key.
  destruct (getenv w "OPENAI_API_KEY") as [[|c key]|];
    cbn [fst snd Api.sessions]; try (repeat split; auto; apply Hok).
  destruct (start_integration w _ _) as [[loaded|e] w1];
    cbn [fst snd Api.sessions]; try (repeat split; auto; apply Hok).
  destruct (now w1) as [timestamp w2]. cbn [fst snd Api.sessions].
  set (entry := {| entry_history := _ |}).
  assert (Hentry : entry_ok entry = true).
  { subst entry. destruct (truthy_str system_prompt); reflexivity. }
  split; [now apply table_ok_new|].
  split.
  { intros k found Hk. now rewrite session_get_app, Hk. }
  split.
  { now rewrite session_get_app, Hget, String.eqb_refl. }
  split; [exact Hpick|]. split.
  { intros k Hk. rewrite session_get_app.
    destruct (session_get k (Api.sessions sv)); [reflexivity|].
    apply String.eqb_neq in Hk. now rewrite String.eqb_sym, Hk. }
  rewrite Hget. subst entry. cbn [message_count entry_history].
  split; [reflexivity|]. destruct (truthy_str system_prompt); eauto.
Qed.

Lemma get_or_create_frame (session_id system_prompt : option string) sv :
  (forall k entry,
      session_get k (Api.sessions sv) = Some entry ->
      session_get k (Api.sessions
                       (snd (get_or_create session_id system_prompt sv)))
      = Some entry) /\
  match fst (get_or_create session_id system_prompt sv) with
  | Ok (id, entry) =>
      session_get id (Api.sessions
                        (snd (get_or_create session_id system_prompt sv)))
      = Some entry /\
      (truthy_str session_id = true -> id = or_empty session_id) /\
      (forall k, k <> id ->
         session_get k (Api.sessions
                          (snd (get_or_create session_id system_prompt sv)))
         = session_get k (Api.sessions sv)) /\
      match session_get id (Api.sessions sv) with
      | Some found => entry = found
      | None =>
          message_count entry = 0%Z /\
          exists prompt, entry_history entry = [system_turn prompt]
      end
  | _ =>
      Api.sessions (snd (get_or_create session_id system_prompt sv))
      = Api.sessions sv
  end.
Proof.
  unfold Api.get_or_create_session.
  set (picked := if truthy_str session_id then _ else _).
  assert (Hpick : truthy_str session_id = true ->
                  fst picked = or_empty session_id).
  { intros H. subst picked. now rewrite H. }
  destruct picked as [id w]. cbn [fst] in Hpick.
  destruct (session_get id (Api.sessions sv)) as [found|] eqn:Hget.
  { cbn [fst snd Api.sessions]. rewrite Hget. repeat split; auto. }
  unfold Api.get_openai_key.
  destruct (getenv w "OPENAI_API_KEY") as [[|c key]|];
    cbn [fst snd Api.sessions]; try (repeat split; auto; fail).
  destruct (start_integration w _ _) as [[loaded|e] w1];
    cbn [fst snd Api.sessions]; try (repeat split; auto; fail).
  destruct (now w1) as [timestamp w2]. cbn [fst snd Api.sessions].
  split.
  { intros k found Hk. now rewrite session_get_app, Hk. }
  split.
  { now rewrite session_get_app, Hget, String.eqb_refl. }
  split; [exact Hpick|]. split.
  { intros k Hk. rewrite session_get_app.
    destruct (session_get k (Api.sessions sv)); [reflexivity|].
    apply String.eqb_neq in Hk. now rewrite String.eqb_sym, Hk. }
  rewrite Hget. cbn [message_count entry_history].
  split; [reflexivity|]. destruct (truthy_str system_prompt); eauto.
Qed.

Lemma error_reply_status {A : Type} (error_message : string) :
  exists status_code detail,
    Api.error_reply (A := A) str_lower error_message
    = HTTPException status_code detail /\
    (status_code = 401 \/ status_code = 429 \/ status_code = 500)%Z.
Proof.
  unfold Api.error_reply.
  destruct (_ || _); [eauto 6|]. destruct (_ || _); eauto 6.
Qed.

(** X12.  Every endpoint that writes to the session table keeps it well
    formed, however the call ends: the ids are distinct, and every stored
    session has a history that opens with a system turn and respects the
    invariants of the loop, and a [message_count] between zero and the
    number of its user turns. *)
Theorem endpoints_keep_sessions_well_formed sv :
  table_ok (Api.sessions sv) ->
  (forall request, table_ok (Api.sessions (snd (api_chat request sv)))) /\
  (forall system_prompt,
      table_ok (Api.sessions (snd (api_create system_prompt sv)))) /\
  (forall session_id,
      table_ok (Api.sessions (snd (api_delete session_id sv)))) /\
  (forall session_id,
      table_ok (Api.sessions (snd (api_reset session_id sv)))).
Proof.
  intros Hok. split; [|split; [|split]].
  - intros request. unfold Api.chat.
    destruct (get_or_create_run (req_session_id request)
                                (req_system_prompt request) sv Hok)
      as (Hok1 & _ & Hres).
    destruct (get_or_create _ _ sv) as [[[id entry]|status detail|e0] sv1];
      cbn [fst snd] in *; try exact Hok1.
    destruct Hres as (Hget & _).
    assert (Hentry : entry_ok entry = true).
    { exact (proj1 (List.Forall_forall _ _) (proj2 Hok1) _
               (session_get_in _ _ _ Hget)). }
    pose proof (proj1 (entry_ok_iff entry) Hentry) as (_ & Hcount & _).
    destruct (chat' _ _ _ _) as [[response|e] self'] eqn:Hchat.
    + destruct (now (env self')) as [timestamp w]. cbn [snd Api.sessions].
      apply table_ok_update; [exact Hok1|].
      intros found Hfound _. rewrite Hget in Hfound. injection Hfound as <-.
      replace self' with
        (snd (chat' (req_message request) None 10
                    (Api.integration_of entry (Api.outside sv1))))
        by now rewrite Hchat.
      apply chat_on_entry; [exact Hentry|lia].
    + cbn [snd Api.sessions].
      apply table_ok_update; [exact Hok1|].
      intros found Hfound _. rewrite Hget in Hfound. injection Hfound as <-.
      replace self' with
        (snd (chat' (req_message request) None 10
                    (Api.integration_of entry (Api.outside sv1))))
        by now rewrite Hchat.
      apply chat_on_entry; [exact Hentry|lia].
  - intros system_prompt. unfold Api.create_session.
    destruct (get_or_create_run None system_prompt sv Hok) as (Hok1 & _).
    now destruct (get_or_create _ _ sv) as [[[id entry]|status detail|e] sv1].
  - intros session_id. unfold Api.delete_session.
    destruct (session_get session_id (Api.sessions sv)) as [entry|];
      [|exact Hok].
    destruct (stop_integration _ _) as [[[]|e] w]; cbn [snd Api.sessions];
      [now apply table_ok_del|exact Hok].
  - intros session_id. unfold Api.reset_session.
    destruct (session_get session_id (Api.sessions sv)) as [entry|];
      [|exact Hok].
    cbn [snd Api.sessions]. apply table_ok_update; [exact Hok|].
    reflexivity.
Qed.

(** X13.  The chat endpoint has an answer for every request: the response
    with the request's message in it, or an [HTTPException] with status
    401, 429 or 500.  No exception of the session set-up, of the model or
    of the loop leaves it as it is. *)
Theorem chat_endpoint_always_answers (request : ChatRequest) sv :
  match fst (api_chat request sv) with
  | Ok response => res_message response = req_message request
  | HTTPException status_code _ =>
      (status_code = 401 \/ status_code = 429 \/ status_code = 500)%Z
  | Unhandled _ => False
  end.
Proof.
  unfold Api.chat.
  destruct (get_or_create _ _ sv) as [[[id entry]|status detail|e] sv1].
  - destruct (chat' _ _ _ _) as [[response|e0] self'].
    + now destruct (now (env self')).
    + cbn [fst].
      destruct (error_reply_status (A := ChatResponse) (exn_str e0))
        as (st & d & -> & Hst). exact Hst.
  - cbn [fst].
    destruct (error_reply_status (A := ChatResponse)
                (http_exception_str status detail))
      as (st & d & -> & Hst). exact Hst.
  - cbn [fst].
    destruct (error_reply_status (A := ChatResponse) (exn_str e))
      as (st & d & -> & Hst). exact Hst.
Qed.

Lemma truthy_some (text : string) :
  text <> "" -> truthy_str (Some text) = true.
Proof. now destruct text. Qed.

(** X14.  [message_count] counts the answered requests.  When the chat
    endpoint answers, the session it names is stored with a count one
    above what it had (one, for a session made by this request).  When it
    fails, every session that was stored is still stored, with the count
    and the creation time it had. *)
Theorem message_count_counts_answers (request : ChatRequest) sv :
  match fst (api_chat request sv) with
  | Ok response =>
      exists entry',
        session_get (res_session_id response)
                    (Api.sessions (snd (api_chat request sv))) = Some entry' /\
        message_count entry' =
          (match session_get (res_session_id response) (Api.sessions sv) with
           | Some entry => message_count entry
           | None => 0
           end + 1)%Z
  | _ =>
      forall k entry,
        session_get k (Api.sessions sv) = Some entry ->
        exists entry',
          session_get k (Api.sessions (snd (api_chat request sv)))
          = Some entry' /\
          message_count entry' = message_count entry /\
          created_at entry' = created_at entry
  end.
Proof.
  unfold Api.chat.
  destruct (get_or_create_frame (req_session_id request)
                                (req_system_prompt request) sv)
    as (Hkeep & Hres).
  destruct (get_or_create _ _ sv) as [[[id entry]|status detail|e0] sv1];
    cbn [fst snd] in *.
  - destruct Hres as (Hget & _ & _ & Hwas).
    destruct (chat' _ _ _ _) as [[response|e1] self'].
    + destruct (now (env self')) as [timestamp w].
      cbn [fst snd res_session_id Api.sessions].
      rewrite session_get_update, String.eqb_refl, Hget. cbn [option_map].
      eexists. split; [reflexivity|]. cbn [Api.stored message_count].
      destruct (session_get id (Api.sessions sv)) as [found|].
      * now subst found.
      * destruct Hwas as [-> _]. reflexivity.
    + assert (Hgoal : forall k found,
                 session_get k (Api.sessions sv) = Some found ->
                 exists entry',
                   session_get k
                     (session_update id
                        (Api.stored self' (message_count entry))
                        (Api.sessions sv1)) = Some entry' /\
                   message_count entry' = message_count found /\
                   created_at entry' = created_at found).
      { intros k found Hk. rewrite session_get_update, (Hkeep _ _ Hk).
        destruct (String.eqb id k) eqn:E.
        - apply String.eqb_eq in E. subst k.
          rewrite (Hkeep _ _ Hk) in Hget. injection Hget as ->.
          cbn [option_map]. eexists. split; [reflexivity|]. auto.
        - eauto. }
      unfold Api.error_reply.
      destruct (_ || _); [exact Hgoal|]. destruct (_ || _); exact Hgoal.
  - unfold Api.error_reply.
    destruct (_ || _); [|destruct (_ || _)]; cbn [fst snd];
      intros k found Hk; rewrite Hres; eauto.
  - unfold Api.error_reply.
    destruct (_ || _); [|destruct (_ || _)]; cbn [fst snd];
      intros k found Hk; rewrite Hres; eauto.
Qed.

(** X15.  Sessions are independent in the table: a chat request, a reset
    or a deletion that names one session leaves every other id with the
    entry it had, or without one as before. *)
Theorem sessions_are_isolated
        (session_id other message : string) (prompt : option string) sv :
  session_id <> "" ->
  other <> session_id ->
  session_get other
    (Api.sessions
       (snd (api_chat {| req_message := message;
                         req_session_id := Some session_id;
                         req_system_prompt := prompt |} sv)))
  = session_get other (Api.sessions sv) /\
  session_get other (Api.sessions (snd (api_reset session_id sv)))
  = session_get other (Api.sessions sv) /\
  session_get other (Api.sessions (snd (api_delete session_id sv)))
  = session_get other (Api.sessions sv).
Proof.
  intros Hid Hother.
  assert (Hneq : String.eqb session_id other = false).
  { apply String.eqb_neq. congruence. }
  split; [|split].
  - unfold Api.chat. cbn [req_session_id req_system_prompt req_message].
    destruct (get_or_create_frame (Some session_id) prompt sv) as (_ & Hres).
    destruct (get_or_create _ _ sv) as [[[id entry]|status detail|e0] sv1];
      cbn [fst snd] in *.
    + destruct Hres as (_ & Hpick & Hframe & _).
      rewrite (Hpick (truthy_some _ Hid)) in *. cbn [or_empty] in *.
      destruct (chat' _ _ _ _) as [[response|e1] self'].
      * destruct (now (env self')) as [timestamp w]. cbn [snd Api.sessions].
        rewrite session_get_update, Hneq. now apply Hframe.
      * cbn [snd Api.sessions].
        rewrite session_get_update, Hneq. now apply Hframe.
    + now rewrite Hres.
    + now rewrite Hres.
  - unfold Api.reset_session.
    destruct (session_get session_id (Api.sessions sv)) as [entry|];
      [|reflexivity].
    cbn [snd Api.sessions]. now rewrite session_get_update, Hneq.
  - unfold Api.delete_session.
    destruct (session_get session_id (Api.sessions sv)) as [entry|];
      [|reflexivity].
    destruct (stop_integration _ _) as [[[]|e0] w]; cbn [snd Api.sessions];
      [|reflexivity].
    now rewrite session_get_del, Hneq.
Qed.

(** X16.  The system prompt of a chat request counts only when the request
    makes the session: for a session that is stored already the endpoint
    does the same with any prompt as with none. *)
Theorem request_prompt_ignored_for_stored_session
        (session_id message : string) (prompt : option string) entry sv :
  session_id <> "" ->
  session_get session_id (Api.sessions sv) = Some entry ->
  api_chat {| req_message := message;
              req_session_id := Some session_id;
              req_system_prompt := prompt |} sv
  = api_chat {| req_message := message;
                req_session_id := Some session_id;
                req_system_prompt := None |} sv.
Proof.
  intros Hid Hget. unfold Api.chat, Api.get_or_create_session.
  cbn [req_session_id req_system_prompt req_message].
  rewrite (truthy_some _ Hid). cbn [or_empty]. now rewrite Hget.
Qed.

(** X17.  Deleting a session.  For an id that is not stored the endpoint
    raises 404 and changes nothing.  For a stored session whose integration
    closes, it answers "Session deleted"; afterwards the history of the id
    gives 404, the listing does not name it, and every other session is
    stored as before.  When closing the integration raises, that exception
    leaves the endpoint and the table is the same: the session stays
    stored. *)
Theorem delete_session_outcomes (session_id : string) sv :
  (session_get session_id (Api.sessions sv) = None ->
   api_delete session_id sv =
   (HTTPException 404 "Session not found", sv)) /\
  (forall entry (w : World),
      session_get session_id (Api.sessions sv) = Some entry ->
      stop_integration (Api.outside sv) entry = (Returned tt, w) ->
      exists sv',
        api_delete session_id sv = (Ok "Session deleted", sv') /\
        Api.outside sv' = w /\
        session_get session_id (Api.sessions sv') = None /\
        Api.get_history session_id sv'
        = HTTPException 404 "Session not found" /\
        ~ In session_id (map si_session_id (Api.list_sessions sv')) /\
        (forall other,
            other <> session_id ->
            session_get other (Api.sessions sv')
            = session_get other (Api.sessions sv))) /\
  (forall entry e (w : World),
      session_get session_id (Api.sessions sv) = Some entry ->
      stop_integration (Api.outside sv) entry = (Raised e, w) ->
      api_delete session_id sv =
      (Unhandled e, {| Api.sessions := Api.sessions sv; Api.outside := w |}) /\
      Api.get_history session_id (snd (api_delete session_id sv))
      = Ok (session_id, entry_history entry)).
Proof.
  unfold Api.delete_session. split; [|split].
  - now intros ->.
  - intros entry w Hget Hstop. rewrite Hget. cbv beta iota. rewrite Hstop.
    assert (Hgone : session_get session_id
                      (session_del session_id (Api.sessions sv)) = None)
      by now rewrite session_get_del, String.eqb_refl.
    eexists. split; [reflexivity|]. cbn [Api.outside Api.sessions].
    split; [reflexivity|]. split; [exact Hgone|]. split; [|split].
    + unfold Api.get_history. cbn [Api.sessions]. now rewrite Hgone.
    + unfold Api.list_sessions. cbn [Api.sessions]. rewrite map_map.
      cbn [si_session_id]. exact (session_get_none _ _ Hgone).
    + intros other Hother. rewrite session_get_del.
      assert (Hneq : String.eqb session_id other = false)
        by (apply String.eqb_neq; congruence).
      now rewrite Hneq.
  - intros entry e w Hget Hstop. rewrite Hget. cbv beta iota.
    rewrite Hstop. split; [reflexivity|].
    unfold Api.get_history. cbn [snd Api.sessions]. now rewrite Hget.
Qed.


Lemma session_update_new (k : string) (f : Entry -> Entry) entry
      (table : Table) :
  session_get k table = None ->
  session_update k f (table ++ [(k, entry)]) = table ++ [(k, f entry)].
Proof.
  induction table as [|[k0 e0] table IH];
    cbn [app session_get session_update].
  - now rewrite String.eqb_refl.
  - destruct (String.eqb k0 k); [discriminate|]. intros H. now rewrite IH.
Qed.

(** X19.  A first request that fails at the model still makes its session:
    when the id is new, the key is set and the integration starts, but the
    model cannot be reached, the endpoint answers with the status of that
    failure and the table has gained the session, with a count of zero and
    a history of the system turn and the unanswered user turn. *)
Theorem failed_first_request_leaves_a_session
        (session_id message : string) (prompt : option string) sv
        (c : ascii) (key : string) (loaded : list Tool) (timestamp : string)
        (w1 w2 w3 : World) e :
  session_id <> "" ->
  session_get session_id (Api.sessions sv) = None ->
  getenv (Api.outside sv) "OPENAI_API_KEY" = Some (String c key) ->
  start_integration (Api.outside sv) (String c key)
                    (Api.get_mcp_server_url getenv (Api.outside sv))
  = (Returned loaded, w1) ->
  now w1 = (timestamp, w2) ->
  let opening :=
    [system_turn (if truthy_str prompt then or_empty prompt
                  else default_system_prompt);
     user_turn message] in
  create w2 opening (match loaded with [] => None | _ => Some loaded end)
  = (Raised e, w3) ->
  api_chat {| req_message := message;
              req_session_id := Some session_id;
              req_system_prompt := prompt |} sv
  = (Api.error_reply str_lower (exn_str e),
     {| Api.sessions :=
          Api.sessions sv ++
          [(session_id,
            {| entry_history := opening;
               entry_tools := loaded;
               created_at := timestamp;
               message_count := 0 |})];
        Api.outside := w3 |}).
Proof.
  intros Hid Hnew Hkey Hstart Hnow opening Hcreate.
  unfold Api.chat, Api.get_or_create_session, Api.get_openai_key.
  cbn [req_session_id req_system_prompt req_message].
  rewrite (truthy_some _ Hid). cbn [or_empty].
  rewrite Hnew, Hkey, Hstart, Hnow.
  cbn [Api.outside Api.sessions].
  rewrite chat_run, open_turn_eq. cbn [snd].
  change (Z.to_nat 10) with 10.
  rewrite chat_loop_step, request_run.
  unfold tools_or_none, Api.integration_of.
  cbn [conversation_history tools env entry_history entry_tools].
  assert (Hopening :
            (if truthy_str prompt
             then [system_turn (or_empty prompt)]
             else [system_turn default_system_prompt]) ++
            opening_turns message None
              (if truthy_str prompt
               then [system_turn (or_empty prompt)]
               else [system_turn default_system_prompt]) = opening).
  { subst opening. unfold opening_turns.
    now destruct (truthy_str prompt). }
  rewrite Hopening.
  replace (match loaded with [] => None | t :: l => Some (t :: l) end)
    with (match loaded with [] => None | _ :: _ => Some loaded end)
    by now destruct loaded.
  rewrite Hcreate. cbn [fst snd with_env env conversation_history tools].
  rewrite session_update_new by exact Hnew.
  unfold Api.stored.
  cbn [conversation_history tools created_at message_count].
  reflexivity.
Qed.

End ApiFacts.

(** * The query tool *)

Section ServerFacts.

Context {World Handle Row : Type}.
Variable strip : string -> string.
Variable upper : string -> string.
Variable getenv : World -> string -> option string.
Variable python_int : string -> Server.outcome Z.
Variable mysql_connect :
  World -> string -> Z -> option string -> option string -> option string ->
  Server.outcome Handle * World.
Variable is_connected : World -> Handle -> bool.
Variable close : World -> Handle -> Server.outcome unit * World.
Variable run_query :
  World -> Handle -> string -> option (list json) ->
  Server.outcome (Server.Fetched (Row := Row)) * World.
Variable dumps : json -> string.
Variable dumps_result :
  Server.Selected (Row := Row) -> Server.outcome string.

Local Abbreviation is_select := (Server.is_select strip upper).
Local Abbreviation execute_select :=
  (Server.execute_select strip upper mysql_connect is_connected run_query).
Local Abbreviation select_and_format :=
  (Server.select_and_format strip upper getenv python_int mysql_connect
                            is_connected close run_query dumps_result).
Local Abbreviation execute_select_query :=
  (Server.execute_select_query strip upper getenv python_int mysql_connect
                               is_connected close run_query dumps
                               dumps_result).




(** X21.  A query that does not begin with SELECT, after [strip] and
    [upper], never reaches a cursor.  [execute_select] raises the
    [ValueError] before it looks at the connection, and leaves the object
    and the database as they were.  The tool, on a database that accepts
    the connection, opens and closes the connection and answers with the
    validation error. *)
Theorem non_select_query_is_refused
        (query : string) (params : option (list json)) (w w1 w2 : World)
        (db_conn : Server.MySQLConnection (Handle := Handle)) (h : Handle) :
  is_select query = false ->
  Server.get_db_connection_from_env getenv python_int w = Server.Done db_conn ->
  mysql_connect w (Server.host db_conn) (Server.port db_conn)
                (Server.database db_conn) (Server.user db_conn)
                (Server.password db_conn) = (Server.Done h, w1) ->
  is_connected w1 h = true ->
  close w1 h = (Server.Done tt, w2) ->
  (forall (self : Server.MySQLConnection (Handle := Handle)) p (w0 : World),
      execute_select self query p w0 =
      (Server.Fails {| Server.kind := Server.ValueError;
                       Server.text := "Only SELECT queries are allowed" |},
       self, w0)) /\
  execute_select_query query params w =
  (Server.Done
     (dumps (Server.error_response "Validation Error" "Query validation failed"
                                   "Only SELECT queries are allowed"
                                   "validation_error")),
   w2).
Proof.
  intros Hguard Henv Hconnect Hlive Hclose.
  assert (Hrefused :
            forall (self : Server.MySQLConnection (Handle := Handle)) p
                   (w0 : World),
              execute_select self query p w0 =
              (Server.Fails
                 {| Server.kind := Server.ValueError;
                    Server.text := "Only SELECT queries are allowed" |},
               self, w0)).
  { intros self p w0. unfold Server.execute_select. now rewrite Hguard. }
  split; [exact Hrefused|].
  unfold Server.execute_select_query, Server.select_and_format.
  rewrite Henv. unfold Server.connect. rewrite Hconnect, Hrefused.
  unfold Server.disconnect, Server.with_connection.
  cbn [Server.connection]. rewrite Hlive, Hclose. reflexivity.
Qed.

End ServerFacts.

(** * The further statements at concrete sessions *)

Section MoreExamples.

Local Abbreviation demo_chat :=
  (chat Demo.json_loads Demo.create Demo.call_tool).
Local Abbreviation demo_loop :=
  (chat_loop Demo.json_loads Demo.create Demo.call_tool).
Local Abbreviation demo_api_chat :=
  (Api.chat Demo.json_loads Demo.create Demo.call_tool DemoApi.str_lower
            DemoApi.http_exception_str DemoApi.getenv DemoApi.uuid4
            DemoApi.now DemoApi.start_integration
            DemoApi.default_system_prompt).
Local Abbreviation demo_api_reset :=
  (Api.reset_session (World := Demo.World) DemoApi.default_system_prompt).
Local Abbreviation demo_api_delete :=
  (Api.delete_session DemoApi.stop_integration).

Lemma chat_without_budget_witness :
  demo_chat "hi" (Some "sys") 0 (Demo.session [] (Demo.world [] []))
  = (Returned BUDGET_EXHAUSTED,
     Demo.session [system_turn "sys"; user_turn "hi"] (Demo.world [] [])).
Proof.
  apply (chat_without_budget Demo.json_loads Demo.create Demo.call_tool
           "hi" (Some "sys") 0 (Demo.session [] (Demo.world [] []))).
  lia.
Defined.

Lemma chat_keeps_user_turn_when_request_fails_witness :
  demo_chat "hi" None 10
            (Demo.session [] (Demo.world [DemoApi.unreachable] []))
  = (Raised {| exn_cls := OtherException; exn_str := "Connection error." |},
     Demo.session [user_turn "hi"] (Demo.world [] [])).
Proof.
  apply (chat_keeps_user_turn_when_request_fails
           Demo.json_loads Demo.create Demo.call_tool "hi" None 10
           (Demo.session [] (Demo.world [DemoApi.unreachable] []))).
  - lia.
  - reflexivity.
Defined.

Lemma system_prompt_only_opens_a_conversation_witness :
  demo_chat "again" (Some "sys") 3 Demo.two_calls_session
  = demo_chat "again" None 3 Demo.two_calls_session.
Proof.
  apply (system_prompt_only_opens_a_conversation
           Demo.json_loads Demo.create Demo.create_stream Demo.call_tool
           "again" (Some "sys") 3 Demo.two_calls_session).
  discriminate.
Defined.

Lemma tool_turns_answer_preserved_witness :
  tool_turns_answer
    (conversation_history
       (snd (demo_chat "again" None 3 Demo.two_calls_session))) = true.
Proof.
  apply (tool_turns_answer_preserved
           Demo.json_loads Demo.create Demo.create_stream Demo.call_tool
           Demo.two_calls_session).
  reflexivity.
Defined.

Lemma chat_breaks_off_at_undecodable_call_witness :
  exists (results : list string) (self' : Integration Demo.World),
    demo_loop 1
      (Demo.session [user_turn "hi"]
         (Demo.world [Demo.asks [Demo.lookup_call;
                                 Demo.call "c2" "lookup" "{";
                                 Demo.unknown_call]] []))
    = (Raised Demo.cut_off_object, self') /\
    length results = 1 /\
    carried_out Demo.json_loads Demo.call_tool [Demo.lookup_call]
                (Demo.world [] []) results (env self') /\
    conversation_history self' =
      [{| role := user; content := Some "hi";
          tool_calls := None; tool_call_id := None |}] ++
      {| role := assistant; content := None;
         tool_calls := Some [Demo.lookup_call;
                             Demo.call "c2" "lookup" "{";
                             Demo.unknown_call];
         tool_call_id := None |}
        :: zip_with (fun tool_call tool_result =>
                       {| role := tool;
                          content := Some tool_result;
                          tool_calls := None;
                          tool_call_id := Some (tc_id tool_call) |})
                    [Demo.lookup_call] results /\
    tools self' = [].
Proof.
  apply (chat_breaks_off_at_undecodable_call
           Demo.json_loads Demo.create Demo.call_tool 0
           (Demo.session [user_turn "hi"]
              (Demo.world [Demo.asks [Demo.lookup_call;
                                      Demo.call "c2" "lookup" "{";
                                      Demo.unknown_call]] []))
           {| msg_content := None;
              msg_tool_calls := Some [Demo.lookup_call;
                                      Demo.call "c2" "lookup" "{";
                                      Demo.unknown_call] |}
           (Demo.world [] [])
           [Demo.lookup_call] (Demo.call "c2" "lookup" "{")
           [Demo.unknown_call] Demo.cut_off_object).
  - reflexivity.
  - reflexivity.
  - repeat constructor. exists (JObj []). reflexivity.
  - reflexivity.
Defined.

Lemma chat_streaming_drops_a_broken_stream_witness :
  exists (g : Generator) (self_n self_end : Integration Demo.World),
    consume Demo.create_stream 1 (chat_streaming "hi" None)
      (Demo.session []
         (Demo.world [] [Returned [Demo.delta "a";
                                   Raised Demo.script_exhausted;
                                   Demo.delta "b"]]))
    = (["a"], g, self_n) /\
    anext Demo.create_stream g self_n
    = (Failed Demo.script_exhausted, Closed, self_end) /\
    conversation_history self_end = [user_turn "hi"] /\
    anext Demo.create_stream Closed self_end
    = (StopAsyncIteration, Closed, self_end).
Proof.
  apply (chat_streaming_drops_a_broken_stream
           Demo.create_stream "hi" None
           (Demo.session []
              (Demo.world [] [Returned [Demo.delta "a";
                                        Raised Demo.script_exhausted;
                                        Demo.delta "b"]]))
           [Demo.delta "a"] [Demo.delta "b"] Demo.script_exhausted
           (Demo.world [] [])).
  - reflexivity.
  - repeat constructor. eexists. reflexivity.
Defined.

Lemma history_copy_is_a_snapshot_witness :
  let self := fst Demo.greeted in
  let h := snd Demo.greeted in
  let r := fst (Store.get_conversation_history self h) in
  let h1 := snd (Store.get_conversation_history self h) in
  Store.read r (Store.append_turn self (assistant_turn "hello") h1)
  = Some [user_turn "hi"] /\
  Store.read (Store.history_attr self)
             (Store.append_turn self (assistant_turn "hello") h1)
  = Some ([user_turn "hi"] ++ [assistant_turn "hello"]) /\
  Store.read r (snd (Store.reset_conversation self h1))
  = Some [user_turn "hi"] /\
  Store.read (Store.history_attr (fst (Store.reset_conversation self h1)))
             (snd (Store.reset_conversation self h1)) = Some [].
Proof.
  apply (history_copy_is_a_snapshot (fst Demo.greeted) (snd Demo.greeted)
           [user_turn "hi"] (assistant_turn "hello")).
  vm_compute. reflexivity.
Defined.

Lemma endpoints_keep_sessions_well_formed_witness :
  table_ok
    (Api.sessions
       (snd (demo_api_chat (DemoApi.request "more" "alice" None)
                           (DemoApi.server [Demo.says "sure"])))).
Proof.
  apply (endpoints_keep_sessions_well_formed
           Demo.json_loads Demo.create Demo.call_tool DemoApi.str_lower
           DemoApi.http_exception_str DemoApi.getenv DemoApi.uuid4
           DemoApi.now DemoApi.start_integration DemoApi.stop_integration
           DemoApi.default_system_prompt
           (DemoApi.server [Demo.says "sure"])).
  split.
  - cbn. apply NoDup_singleton.
  - repeat constructor.
Defined.

Lemma sessions_are_isolated_witness :
  session_get "alice"
    (Api.sessions
       (snd (demo_api_chat (DemoApi.request "hello" "bob" None)
                           (DemoApi.server [Demo.says "hi bob"]))))
  = Some DemoApi.alice.
Proof.
  apply (sessions_are_isolated
           Demo.json_loads Demo.create Demo.call_tool DemoApi.str_lower
           DemoApi.http_exception_str DemoApi.getenv DemoApi.uuid4
           DemoApi.now DemoApi.start_integration DemoApi.stop_integration
           DemoApi.default_system_prompt
           "bob" "alice" "hello" None (DemoApi.server [Demo.says "hi bob"]));
    discriminate.
Defined.

Lemma request_prompt_ignored_for_stored_session_witness :
  demo_api_chat (DemoApi.request "more" "alice" (Some "be brief"))
                (DemoApi.server [Demo.says "sure"])
  = demo_api_chat (DemoApi.request "more" "alice" None)
                  (DemoApi.server [Demo.says "sure"]).
Proof.
  apply (request_prompt_ignored_for_stored_session
           Demo.json_loads Demo.create Demo.call_tool DemoApi.str_lower
           DemoApi.http_exception_str DemoApi.getenv DemoApi.uuid4
           DemoApi.now DemoApi.start_integration
           DemoApi.default_system_prompt
           "alice" "more" (Some "be brief") DemoApi.alice
           (DemoApi.server [Demo.says "sure"])).
  - discriminate.
  - reflexivity.
Defined.

Lemma delete_session_outcomes_witness :
  demo_api_delete "bob" (DemoApi.server [])
  = (HTTPException 404 "Session not found", DemoApi.server []) /\
  (exists sv',
      demo_api_delete "alice" (DemoApi.server [])
      = (Ok "Session deleted", sv') /\
      Api.get_history "alice" sv' = HTTPException 404 "Session not found" /\
      ~ In "alice" (map si_session_id (Api.list_sessions sv'))) /\
  Api.delete_session DemoApi.stop_fails "alice" (DemoApi.server [])
  = (Unhandled DemoApi.broken_pipe, DemoApi.server []).
Proof.
  split; [|split].
  - apply (delete_session_outcomes DemoApi.stop_integration
             "bob" (DemoApi.server [])).
    reflexivity.
  - destruct (delete_session_outcomes DemoApi.stop_integration
                "alice" (DemoApi.server []))
      as (_ & Hdeleted & _).
    destruct (Hdeleted DemoApi.alice (Demo.world [] []))
      as (sv' & Hrun & _ & _ & Hhistory & Hlisting & _).
    + reflexivity.
    + reflexivity.
    + exists sv'. auto.
  - destruct (delete_session_outcomes DemoApi.stop_fails
                "alice" (DemoApi.server []))
      as (_ & _ & Hfails).
    destruct (Hfails DemoApi.alice DemoApi.broken_pipe (Demo.world [] []))
      as (Hrun & _).
    + reflexivity.
    + reflexivity.
    + exact Hrun.
Defined.


Lemma failed_first_request_leaves_a_session_witness :
  demo_api_chat (DemoApi.request "hello" "bob" None)
                (DemoApi.server [DemoApi.unreachable])
  = (HTTPException 500 "Connection error.",
     {| Api.sessions :=
          [("alice", DemoApi.alice);
           ("bob",
            {| entry_history :=
                 [system_turn DemoApi.default_system_prompt;
                  user_turn "hello"];
               entry_tools := [];
               created_at := "2025-10-25T12:00:00";
               message_count := 0 |})];
        Api.outside := Demo.world [] [] |}).
Proof.
  eapply (failed_first_request_leaves_a_session
            Demo.json_loads Demo.create Demo.call_tool DemoApi.str_lower
            DemoApi.http_exception_str DemoApi.getenv DemoApi.uuid4
            DemoApi.now DemoApi.start_integration
            DemoApi.default_system_prompt
            "bob" "hello" None (DemoApi.server [DemoApi.unreachable])
            "s"%char "k-test" [] "2025-10-25T12:00:00"
            (Demo.world [DemoApi.unreachable] [])
            (Demo.world [DemoApi.unreachable] [])
            (Demo.world [] [])
            {| exn_cls := OtherException; exn_str := "Connection error." |}).
  - discriminate.
  - reflexivity.
  - reflexivity.
  - reflexivity.
  - reflexivity.
  - reflexivity.
Defined.

Lemma non_select_query_is_refused_witness :
  Server.execute_select_query
    DemoDb.strip DemoDb.upper DemoDb.getenv DemoDb.python_int
    DemoDb.mysql_connect DemoDb.is_connected DemoDb.close DemoDb.run_query
    DemoDb.dumps DemoDb.dumps_result
    "  drop table Sale" None []
  = (Server.Done "Validation Error", []).
Proof.
  eapply (non_select_query_is_refused
            DemoDb.strip DemoDb.upper DemoDb.getenv DemoDb.python_int
            DemoDb.mysql_connect DemoDb.is_connected DemoDb.close
            DemoDb.run_query DemoDb.dumps DemoDb.dumps_result
            "  drop table Sale" None [] [] []).
  - reflexivity.
  - reflexivity.
  - reflexivity.
  - reflexivity.
  - reflexivity.
Defined.

End MoreExamples.
